(** * ChronOS Timeline: week keys, event matching and settings operations

    A shallow embedding of the date/week arithmetic, the event-to-cell
    resolution and the settings mutations of [src/main.ts], followed by the
    properties stated about them.

    Conventions of the embedding.
    - A JavaScript [Date] is represented by its local wall-clock reading in
      milliseconds since the local epoch (an integer).  The host time zone is
      a fixed offset (no daylight-saving transitions), so every local-time
      accessor and mutator of [Date] is a function of that reading, and
      comparisons and differences of [getTime()] values coincide with those
      of the readings.  The offset itself is only observable through
      [toISOString], which takes it as an explicit argument.  Dates are valid
      (no [Invalid Date]) and inside the range ECMAScript can represent.
    - Integer-valued JavaScript numbers are [Z]; [NaN] produced by [parseInt]
      is [None].
    - Strings are [string]s of 8-bit code units. *)

From Stdlib Require Import ZArith List Bool Lia Ascii String.
From Stdlib Require Import DecimalString DecimalZ DecimalPos DecimalN DecimalNat.
From Stdlib Require Import QArith Qminmax Lqa.
From Stdlib Require Import Permutation Sorted.
Import ListNotations.

Local Open Scope Z_scope.

(* ------------------------------------------------------------------ *)
(** ** ECMAScript time values *)
(* ------------------------------------------------------------------ *)

Module JSDate.

(** A [Date], as its local reading in milliseconds. *)
Definition Date := Z.

Definition msPerDay : Z := 86400000.

(** [Day(t)] and [TimeWithinDay(t)]. *)
Definition Day (t : Date) : Z := t / msPerDay.
Definition TimeWithinDay (t : Date) : Z := t mod msPerDay.

Definition DaysInYear (y : Z) : Z :=
  if negb (y mod 4 =? 0) then 365
  else if negb (y mod 100 =? 0) then 366
  else if negb (y mod 400 =? 0) then 365
  else 366.

(** [DayFromYear(y)]: day number of January 1st of year [y]. *)
Definition DayFromYear (y : Z) : Z :=
  365 * (y - 1970) + (y - 1969) / 4 - (y - 1901) / 100 + (y - 1601) / 400.

(** [YearFromTime]: the largest [y] with [DayFromYear y <= day].  It is
    computed from an estimate that is off by at most one. *)
Definition YearFromDay (d : Z) : Z :=
  let y := 1970 + (400 * d) / 146097 in
  if d <? DayFromYear y then y - 1
  else if DayFromYear (y + 1) <=? d then y + 1
  else y.

Definition YearFromTime (t : Date) : Z := YearFromDay (Day t).

Definition InLeapYear (t : Date) : Z :=
  if DaysInYear (YearFromTime t) =? 366 then 1 else 0.

Definition DayWithinYear (t : Date) : Z :=
  Day t - DayFromYear (YearFromTime t).

(** Day within the year on which month [m] (0-based) starts; [m = 12] gives
    the length of the year. *)
Definition monthStart (leap m : Z) : Z :=
  match m with
  | 0 => 0
  | 1 => 31
  | 2 => 59 + leap
  | 3 => 90 + leap
  | 4 => 120 + leap
  | 5 => 151 + leap
  | 6 => 181 + leap
  | 7 => 212 + leap
  | 8 => 243 + leap
  | 9 => 273 + leap
  | 10 => 304 + leap
  | 11 => 334 + leap
  | _ => 365 + leap
  end.

Definition monthOfYearDay (leap dwy : Z) : Z :=
  if dwy <? 31 then 0
  else if dwy <? 59 + leap then 1
  else if dwy <? 90 + leap then 2
  else if dwy <? 120 + leap then 3
  else if dwy <? 151 + leap then 4
  else if dwy <? 181 + leap then 5
  else if dwy <? 212 + leap then 6
  else if dwy <? 243 + leap then 7
  else if dwy <? 273 + leap then 8
  else if dwy <? 304 + leap then 9
  else if dwy <? 334 + leap then 10
  else 11.

Definition MonthFromTime (t : Date) : Z :=
  monthOfYearDay (InLeapYear t) (DayWithinYear t).

Definition DateFromTime (t : Date) : Z :=
  DayWithinYear t - monthStart (InLeapYear t) (MonthFromTime t) + 1.

Definition WeekDay (t : Date) : Z := (Day t + 4) mod 7.

(** [MakeDay(year, month, date)]. *)
Definition MakeDay (year month date : Z) : Z :=
  let ym := year + month / 12 in
  let mn := month mod 12 in
  let leap := if DaysInYear ym =? 366 then 1 else 0 in
  DayFromYear ym + monthStart leap mn + date - 1.

Definition MakeDate (day time : Z) : Date := day * msPerDay + time.

(** *** The methods of [Date] used by the plugin *)

Definition getFullYear (t : Date) : Z := YearFromTime t.
Definition getMonth (t : Date) : Z := MonthFromTime t.
Definition getDate (t : Date) : Z := DateFromTime t.
Definition getDay (t : Date) : Z := WeekDay t.

(** [d.setHours(0, 0, 0, 0)] *)
Definition setHours0 (t : Date) : Date := MakeDate (Day t) 0.

(** [d.setDate(n)] *)
Definition setDate (t : Date) (n : Z) : Date :=
  MakeDate (MakeDay (YearFromTime t) (MonthFromTime t) n) (TimeWithinDay t).

(** [d.setFullYear(y)] *)
Definition setFullYear (t : Date) (y : Z) : Date :=
  MakeDate (MakeDay y (MonthFromTime t) (DateFromTime t)) (TimeWithinDay t).

(** [new Date(year, month, date)]: local midnight; a year in 0..99 denotes
    1900 + year. *)
Definition newDate (year month date : Z) : Date :=
  let yr := if (0 <=? year) && (year <=? 99) then 1900 + year else year in
  MakeDate (MakeDay yr month date) 0.

End JSDate.
Import JSDate.

(* ------------------------------------------------------------------ *)
(** ** JavaScript strings and objects *)
(* ------------------------------------------------------------------ *)

Module JSString.

Definition code (c : ascii) : Z := Z.of_N (N_of_ascii c).

(** [WhiteSpace] and [LineTerminator] code units below 256. *)
Definition isWhiteSpace (c : ascii) : bool :=
  let n := code c in
  ((9 <=? n) && (n <=? 13)) || (n =? 32) || (n =? 160).

Fixpoint trimStart (s : string) : string :=
  match s with
  | String c s' => if isWhiteSpace c then trimStart s' else s
  | EmptyString => EmptyString
  end.

Fixpoint trimEnd (s : string) : string :=
  match s with
  | String c s' =>
      match trimEnd s' with
      | EmptyString => if isWhiteSpace c then EmptyString else String c EmptyString
      | r => String c r
      end
  | EmptyString => EmptyString
  end.

Definition trim (s : string) : string := trimEnd (trimStart s).

(** [s.startsWith(p)] *)
Definition startsWith (p s : string) : bool := String.prefix p s.

Fixpoint drop (n : nat) (s : string) : string :=
  match n, s with
  | S k, String _ s' => drop k s'
  | _, _ => s
  end.

Fixpoint contains (sub s : string) : bool :=
  String.prefix sub s ||
  match s with
  | String _ s' => contains sub s'
  | EmptyString => false
  end.

(** [s.includes(sub, pos)] *)
Definition includes (sub : string) (pos : nat) (s : string) : bool :=
  contains sub (drop pos s).

Fixpoint split_go (sep : string) (skip : nat) (s : string) : list string :=
  match s with
  | EmptyString => [EmptyString]
  | String c s' =>
      match skip with
      | S k => split_go sep k s'
      | O =>
          if String.prefix sep s
          then EmptyString :: split_go sep (String.length sep - 1) s'
          else match split_go sep 0 s' with
               | h :: t => String c h :: t
               | [] => [String c EmptyString]
               end
      end
  end.

(** [s.split(sep)]: the pieces between the successive, non-overlapping
    occurrences of [sep], scanning from the left. *)
Definition split (sep s : string) : list string :=
  match sep with
  | EmptyString => map (fun c => String c EmptyString) (list_ascii_of_string s)
  | _ => split_go sep 0 s
  end.

(** [n.toString()] and [`${n}`] for an integer [n]. *)
Definition toString (n : Z) : string := NilEmpty.string_of_int (Z.to_int n).

Fixpoint repeatTo (fill cur : string) (n : nat) : string :=
  match n with
  | O => EmptyString
  | S k =>
      match cur with
      | String c r => String c (repeatTo fill r k)
      | EmptyString =>
          match fill with
          | String c r => String c (repeatTo fill r k)
          | EmptyString => EmptyString
          end
      end
  end.

(** [s.padStart(target, fill)] *)
Definition padStart (target : nat) (fill s : string) : string :=
  (repeatTo fill fill (target - String.length s) ++ s)%string.

Definition digitValue (radix : Z) (c : ascii) : option Z :=
  let n := code c in
  let v := if (48 <=? n) && (n <=? 57) then Some (n - 48)
           else if (97 <=? n) && (n <=? 122) then Some (n - 87)
           else if (65 <=? n) && (n <=? 90) then Some (n - 55)
           else None in
  match v with
  | Some d => if d <? radix then Some d else None
  | None => None
  end.

Fixpoint parseDigits (radix : Z) (s : string) (acc : option Z) : option Z :=
  match s with
  | String c s' =>
      match digitValue radix c with
      | Some d =>
          parseDigits radix s'
            (Some (match acc with Some a => a * radix + d | None => d end))
      | None => acc
      end
  | EmptyString => acc
  end.

(** [parseInt(s)] without a radix argument; [None] is [NaN]. *)
Definition stripSign (s : string) : Z * string :=
  match s with
  | String c r =>
      if Ascii.eqb c "-" then (-1, r)
      else if Ascii.eqb c "+" then (1, r)
      else (1, s)
  | EmptyString => (1, s)
  end.

Definition stripHexPrefix (s : string) : Z * string :=
  match s with
  | String c0 (String c1 r) =>
      if Ascii.eqb c0 "0" && (Ascii.eqb c1 "x" || Ascii.eqb c1 "X")
      then (16, r) else (10, s)
  | _ => (10, s)
  end.

Definition parseInt (s : string) : option Z :=
  let '(sign, s2) := stripSign (trimStart s) in
  let '(radix, s3) := stripHexPrefix s2 in
  option_map (Z.mul sign) (parseDigits radix s3 None).

(** [parseInt(a[i])] where [a[i]] may be [undefined]. *)
Definition parseIntAt (a : list string) (i : nat) : option Z :=
  match nth_error a i with
  | Some s => parseInt s
  | None => None
  end.

(** Comparisons of numbers that may be [NaN]. *)
Definition num_lt (a b : option Z) : bool :=
  match a, b with Some x, Some y => x <? y | _, _ => false end.
Definition num_gt (a b : option Z) : bool := num_lt b a.
Definition num_le (a b : option Z) : bool :=
  match a, b with Some x, Some y => x <=? y | _, _ => false end.
Definition num_ge (a b : option Z) : bool := num_le b a.
Definition num_eq (a b : option Z) : bool :=
  match a, b with Some x, Some y => x =? y | _, _ => false end.

(** [a.includes(x)] on an array of strings. *)
Definition arrayIncludes (x : string) (a : list string) : bool :=
  existsb (String.eqb x) a.

(** A value used as a condition, or as the left operand of [||]: the empty
    string and [undefined] are falsy. *)
Definition truthy (o : option string) : bool :=
  match o with
  | Some s => negb (String.eqb s EmptyString)
  | None => false
  end.

Definition orElse (o : option string) (d : string) : string :=
  match o with
  | Some s => if String.eqb s EmptyString then d else s
  | None => d
  end.

End JSString.
Import JSString.

(** An object used as a dictionary from names to arrays of strings.  The
    entries are kept in the order [Object.entries] enumerates them, which for
    names that are not canonical array indices is the order of insertion. *)
Module JSObject.

Definition t := list (string * list string).

Fixpoint get (o : t) (k : string) : option (list string) :=
  match o with
  | (k', v) :: r => if String.eqb k' k then Some v else get r k
  | [] => None
  end.

(** [o[k] = v]: replaces the value in place when [k] is present, appends a
    new entry otherwise. *)
Fixpoint set (o : t) (k : string) (v : list string) : t :=
  match o with
  | (k', v') :: r =>
      if String.eqb k' k then (k', v) :: r else (k', v') :: set r k v
  | [] => [(k, v)]
  end.

(** [delete o[k]] *)
Fixpoint delete (o : t) (k : string) : t :=
  match o with
  | (k', v') :: r =>
      if String.eqb k' k then r else (k', v') :: delete r k
  | [] => []
  end.

Definition entries (o : t) : list (string * list string) := o.

End JSObject.

(* ------------------------------------------------------------------ *)
(** ** Settings and the plugin's date arithmetic *)
(* ------------------------------------------------------------------ *)

(** [interface CustomEventType] *)
Record CustomEventType := {
  name : string;
  color : string
}.

(** [interface ChronosSettings], the fields read or written below. *)
Record ChronosSettings := {
  lifespan : Z;
  greenEvents : list string;
  blueEvents : list string;
  zoomLevel : Q;
  pinkEvents : list string;
  purpleEvents : list string;
  customEventTypes : list CustomEventType;
  customEvents : JSObject.t;
  enableAutoFill : bool;
  autoFillDay : Z;
  filledWeeks : list string
}.

(** [interface MonthMarker] *)
Record MonthMarker := {
  weekIndex : Z;
  label : string;
  isFirstOfYear : bool;
  isBirthMonth : bool;
  fullLabel : string
}.

Definition MONTH_NAMES : list string :=
  ["Jan"; "Feb"; "Mar"; "Apr"; "May"; "Jun";
   "Jul"; "Aug"; "Sep"; "Oct"; "Nov"; "Dec"]%string.

(** [MONTH_NAMES[m]] inside a template literal. *)
Definition monthName (m : Z) : string :=
  nth (Z.to_nat m) MONTH_NAMES "undefined"%string.

(** [Math.ceil(a / b)] for integers [a] and [b > 0]. *)
Definition ceilDiv (a b : Z) : Z := - ((- a) / b).

(** The first three statements of [getISOWeekNumber]: [date] at local
    midnight, moved to the Thursday of its week. *)
Definition shiftedToThursday (date : Date) : Date :=
  let d := setHours0 date in
  setDate d (getDate d + 4 - (if getDay d =? 0 then 7 else getDay d)).

(** [getISOWeekNumber(date)] *)
Definition getISOWeekNumber (date : Date) : Z :=
  let d := shiftedToThursday date in
  let yearStart := newDate (getFullYear d) 0 1 in
  ceilDiv (d - yearStart + msPerDay) (7 * msPerDay).

(** [`${year}-W${weekNum.toString().padStart(2, "0")}`] *)
Definition formatWeekKey (year weekNum : Z) : string :=
  (toString year ++ "-W" ++ padStart 2 "0" (toString weekNum))%string.

(** [getWeekKeyFromDate(date)] *)
Definition getWeekKeyFromDate (date : Date) : string :=
  let year := getFullYear date in
  let weekNum := getISOWeekNumber date in
  formatWeekKey year weekNum.

(** The [while] loop of [getWeekKeysBetweenDates]; [fuel] bounds the number
    of iterations. *)
Fixpoint weekKeysLoop (fuel : nat) (endDate currentDate : Date)
    (weekKeys : list string) : list string :=
  match fuel with
  | O => weekKeys
  | S fuel' =>
      if currentDate <? endDate then
        let currentDate := setDate currentDate (getDate currentDate + 7) in
        if currentDate >? endDate then weekKeys
        else
          let currentWeekKey := getWeekKeyFromDate currentDate in
          weekKeysLoop fuel' endDate currentDate
            (if arrayIncludes currentWeekKey weekKeys then weekKeys
             else weekKeys ++ [currentWeekKey])
      else weekKeys
  end.

(** [getWeekKeysBetweenDates(startDate, endDate)].  [currentDate] is cloned
    from [startDate] before the two arguments are put in order. *)
Definition getWeekKeysBetweenDates (startDate endDate : Date) : list string :=
  let currentDate := startDate in
  let '(startDate, endDate) :=
    if startDate >? endDate then (endDate, startDate) else (startDate, endDate) in
  let currentWeekKey := getWeekKeyFromDate currentDate in
  let weekKeys := [currentWeekKey] in
  let fuel := Z.to_nat ((endDate - currentDate) / (7 * msPerDay) + 1) in
  let weekKeys := weekKeysLoop fuel endDate currentDate weekKeys in
  let endWeekKey := getWeekKeyFromDate endDate in
  if arrayIncludes endWeekKey weekKeys then weekKeys
  else weekKeys ++ [endWeekKey].

(** [getFullWeekAge(birthday, today)] *)
Definition getFullWeekAge (birthday today : Date) : Z :=
  (today - birthday) / (1000 * 60 * 60 * 24 * 7).

(** [calculateYearPosition(year, cellSize, cellGap)] for an integer year
    index. *)
Definition DECADE_GAP : Z := 6.
Definition calculateYearPosition (year cellSize cellGap : Z) : Z :=
  let decades := year / 10 in
  let extraGap := DECADE_GAP - cellGap in
  year * (cellSize + cellGap) + decades * extraGap.

(** The first and last day [getWeekDateRange] formats. *)
Definition firstDayOfWeek (year week : Z) : Date :=
  let firstDayOfWeek := newDate year 0 1 in
  let dayOffset := if getDay firstDayOfWeek =? 0 then 7 else getDay firstDayOfWeek in
  let dayToAdd := 1 + (week - 1) * 7 - (dayOffset - 1) in
  setDate firstDayOfWeek dayToAdd.

Definition lastDayOfWeek (firstDayOfWeek : Date) : Date :=
  setDate firstDayOfWeek (getDate firstDayOfWeek + 6).

Definition formatDate (date : Date) : string :=
  (monthName (getMonth date) ++ " " ++ toString (getDate date))%string.

(** [getWeekDateRange(weekKey)].  When the year or the week does not parse,
    both dates are invalid and are formatted as ["undefined NaN"]. *)
Definition getWeekDateRange (weekKey : string) : string :=
  let parts := split "-W" weekKey in
  if negb (List.length parts =? 2)%nat then ""%string
  else
    match parseIntAt parts 0, parseIntAt parts 1 with
    | Some year, Some week =>
        let first := firstDayOfWeek year week in
        let last := lastDayOfWeek first in
        (formatDate first ++ " - " ++ formatDate last)%string
    | _, _ => "undefined NaN - undefined NaN"%string
    end.

(** The outcome of a call that may throw. *)
Inductive Completion (A : Type) :=
| Normal (a : A)
| Throw (error : string).
Arguments Normal {A} a.
Arguments Throw {A} error.

(** [date.toISOString().split("T")[0]]: the calendar date of the instant in
    UTC, where [LocalTZA] is the offset of local time from UTC in
    milliseconds. *)
Definition isoYear (y : Z) : string :=
  if (0 <=? y) && (y <=? 9999) then padStart 4 "0" (toString y)
  else if y <? 0 then ("-" ++ padStart 6 "0" (toString (- y)))%string
  else ("+" ++ padStart 6 "0" (toString y))%string.

Definition toISODateString (LocalTZA : Z) (date : Date) : string :=
  let utc := date - LocalTZA in
  (isoYear (YearFromTime utc) ++ "-"
   ++ padStart 2 "0" (toString (MonthFromTime utc + 1)) ++ "-"
   ++ padStart 2 "0" (toString (DateFromTime utc)))%string.

(** The Monday [convertWeekToDate] computes, before it is printed. *)
Definition weekToDate (year week : Z) : Date :=
  let date := newDate year 0 1 in
  let dayOfWeek := getDay date in
  let daysToAdd := (week - 1) * 7 in
  let daysToAdd :=
    if dayOfWeek <=? 4 then daysToAdd + (1 - dayOfWeek)
    else daysToAdd + (8 - dayOfWeek) in
  setDate date (getDate date + daysToAdd).

(** [convertWeekToDate(weekKey)].  [toISOString] throws a [RangeError] on an
    invalid date. *)
Definition convertWeekToDate (LocalTZA : Z) (weekKey : string) : Completion string :=
  let parts := split "-W" weekKey in
  if negb (List.length parts =? 2)%nat then Normal ""%string
  else
    match parseIntAt parts 0, parseIntAt parts 1 with
    | Some year, Some week =>
        Normal (toISODateString LocalTZA (weekToDate year week))
    | _, _ => Throw "RangeError"%string
    end.

(** [new Date(s)] for a date-only string [YYYY-MM-DD], which denotes
    midnight UTC of that day; this is how the event modal reads back the
    value of its date inputs. *)
Definition dateFromISODateString (LocalTZA : Z) (s : string) : option Date :=
  match split "-" s with
  | [y; m; d] =>
      match parseInt y, parseInt m, parseInt d with
      | Some y, Some m, Some d => Some (MakeDate (MakeDay y (m - 1) d) 0 + LocalTZA)
      | _, _, _ => None
      end
  | _ => None
  end.

(* ------------------------------------------------------------------ *)
(** ** Auto-fill, month markers, zoom *)
(* ------------------------------------------------------------------ *)

Definition set_filledWeeks (s : ChronosSettings) (v : list string) : ChronosSettings :=
  {| lifespan := lifespan s; greenEvents := greenEvents s;
     blueEvents := blueEvents s; zoomLevel := zoomLevel s;
     pinkEvents := pinkEvents s; purpleEvents := purpleEvents s;
     customEventTypes := customEventTypes s; customEvents := customEvents s;
     enableAutoFill := enableAutoFill s; autoFillDay := autoFillDay s;
     filledWeeks := v |}.

Definition set_zoomLevel (s : ChronosSettings) (v : Q) : ChronosSettings :=
  {| lifespan := lifespan s; greenEvents := greenEvents s;
     blueEvents := blueEvents s; zoomLevel := v;
     pinkEvents := pinkEvents s; purpleEvents := purpleEvents s;
     customEventTypes := customEventTypes s; customEvents := customEvents s;
     enableAutoFill := enableAutoFill s; autoFillDay := autoFillDay s;
     filledWeeks := filledWeeks s |}.

Definition set_custom (s : ChronosSettings) (types : list CustomEventType)
    (events : JSObject.t) : ChronosSettings :=
  {| lifespan := lifespan s; greenEvents := greenEvents s;
     blueEvents := blueEvents s; zoomLevel := zoomLevel s;
     pinkEvents := pinkEvents s; purpleEvents := purpleEvents s;
     customEventTypes := types; customEvents := events;
     enableAutoFill := enableAutoFill s; autoFillDay := autoFillDay s;
     filledWeeks := filledWeeks s |}.

(** [checkAndAutoFill()], with the current instant [now] as an argument;
    the result is the returned flag and the settings after the call. *)
Definition checkAndAutoFill (now : Date) (settings : ChronosSettings)
    : bool * ChronosSettings :=
  if negb (enableAutoFill settings) then (false, settings)
  else
    let currentDay := getDay now in
    if negb (currentDay =? autoFillDay settings) then (false, settings)
    else
      let currentWeekKey := getWeekKeyFromDate now in
      if arrayIncludes currentWeekKey (filledWeeks settings) then (false, settings)
      else (true, set_filledWeeks settings (filledWeeks settings ++ [currentWeekKey])).

(** [shouldShowMonth(monthNum)] inside [calculateMonthMarkers]. *)
Definition shouldShowMonth (frequency : string) (monthNum : Z) : bool :=
  if monthNum =? 0 then true
  else if String.eqb frequency "all" then true
  else if String.eqb frequency "quarter" then monthNum mod 3 =? 0
  else if String.eqb frequency "half-year" then monthNum mod 6 =? 0
  else if String.eqb frequency "year" then monthNum =? 0
  else true.

(** The day-by-day [while] loop of [calculateMonthMarkers]; the markers
    pushed so far are threaded through as [monthMarkers]. *)
Fixpoint monthMarkersLoop (fuel : nat) (frequency : string)
    (birthdayDate endDate : Date) (birthMonth birthYear : Z)
    (currentDate : Date) (lastShownMonth lastShownYear : Z)
    (monthMarkers : list MonthMarker) : list MonthMarker :=
  match fuel with
  | O => monthMarkers
  | S fuel' =>
      if currentDate <? endDate then
        let currentMonth := getMonth currentDate in
        let currentYear := getFullYear currentDate in
        let next := setDate currentDate (getDate currentDate + 1) in
        if (negb (currentMonth =? lastShownMonth)
            || negb (currentYear =? lastShownYear))
           && shouldShowMonth frequency currentMonth
        then
          let daysSinceBirth := (currentDate - birthdayDate) / (1000 * 60 * 60 * 24) in
          let exactWeekIndex := daysSinceBirth / 7 in
          let isBirthMonth := (currentMonth =? birthMonth) && (currentYear =? birthYear) in
          let marker :=
            {| weekIndex := exactWeekIndex;
               label := monthName currentMonth;
               isFirstOfYear := currentMonth =? 0;
               isBirthMonth := isBirthMonth;
               fullLabel := (monthName currentMonth ++ " " ++ toString currentYear)%string |} in
          monthMarkersLoop fuel' frequency birthdayDate endDate birthMonth birthYear
            next currentMonth currentYear (monthMarkers ++ [marker])
        else
          monthMarkersLoop fuel' frequency birthdayDate endDate birthMonth birthYear
            next lastShownMonth lastShownYear monthMarkers
      else monthMarkers
  end.

(** [monthMarkers.sort((a, b) => a.weekIndex - b.weekIndex)]: a stable sort
    by week index. *)
Fixpoint insertMarker (m : MonthMarker) (l : list MonthMarker) : list MonthMarker :=
  match l with
  | [] => [m]
  | h :: t =>
      if weekIndex m <? weekIndex h then m :: l
      else h :: insertMarker m t
  end.

Definition sortMarkers (l : list MonthMarker) : list MonthMarker :=
  fold_left (fun acc m => insertMarker m acc) l [].

(** [calculateMonthMarkers(birthdayDate, totalYears, frequency)] *)
Definition calculateMonthMarkers (birthdayDate : Date) (totalYears : Z)
    (frequency : string) : list MonthMarker :=
  let startDate := birthdayDate in
  let endDate := setFullYear birthdayDate (getFullYear birthdayDate + totalYears) in
  let currentDate := startDate in
  let birthMonth := getMonth startDate in
  let birthYear := getFullYear startDate in
  let fuel := Z.to_nat (ceilDiv (endDate - currentDate) msPerDay) in
  let monthMarkers :=
    monthMarkersLoop fuel frequency birthdayDate endDate birthMonth birthYear
      currentDate (-1) (-1) [] in
  sortMarkers monthMarkers.

(** [zoomIn()] and [zoomOut()] as functions of the stored zoom level.
    Numbers are exact rationals here. *)
Definition zoomIn (zoomLevel : Q) : Q := Qmin 3 (zoomLevel + (1 # 10))%Q.
Definition zoomOut (zoomLevel : Q) : Q := Qmax (1 # 10) (zoomLevel - (1 # 10))%Q.

(** [fitToScreen()]: the new zoom level, from the ratio [zoomRatio] the
    function computes out of the measurements of the document. *)
Definition fitToScreen (zoomRatio : Q) : Q :=
  Qmax (1 # 10) (Qmin 3 (zoomRatio * (95 # 100))%Q).

(* ------------------------------------------------------------------ *)
(** ** Event styling of a cell *)
(* ------------------------------------------------------------------ *)

(** What [applyEventStyling] reads and writes of a cell element. *)
Record Cell := {
  backgroundColor : string;
  classList : list string;
  title : option string
}.

Definition nl : string := String "010"%char EmptyString.
Definition dquote : string := String "034"%char EmptyString.

Definition setBackground (c : Cell) (v : string) : Cell :=
  {| backgroundColor := v; classList := classList c; title := title c |}.

(** [cell.addClass(cls)]; a class list holds each token once. *)
Definition addClass (c : Cell) (cls : string) : Cell :=
  {| backgroundColor := backgroundColor c;
     classList := if arrayIncludes cls (classList c) then classList c
                  else classList c ++ [cls];
     title := title c |}.

Definition setTitle (c : Cell) (v : string) : Cell :=
  {| backgroundColor := backgroundColor c; classList := classList c;
     title := Some v |}.

(** The predicate of the [find] for single-date events. *)
Definition isSingleEventFor (weekKey e : string) : bool :=
  startsWith (weekKey ++ ":")%string e && negb (includes ":" 10 e).

(** The predicate of the [filter] for range events. *)
Definition isRangeEvent (e : string) : bool :=
  let parts := split ":" e in
  (3 <=? List.length parts)%nat
  && match nth_error parts 0 with Some p0 => includes "W" 0 p0 | None => false end
  && match nth_error parts 1 with Some p1 => includes "W" 0 p1 | None => false end.

(** [isInRange] for the parsed year and week of the cell and of the two
    ends of the range. *)
Definition isInRange (cellYear cellWeek startYear startWeek endYear endWeek : option Z)
    : bool :=
  (num_gt cellYear startYear
   || (num_eq cellYear startYear && num_ge cellWeek startWeek))
  && (num_lt cellYear endYear
      || (num_eq cellYear endYear && num_le cellWeek endWeek)).

(** The [for] loop over the range events of one collection. *)
Fixpoint rangeLoop (weekKey defaultColor defaultDesc : string)
    (rangeEvents : list string) (cell : Cell) : bool * Cell :=
  match rangeEvents with
  | [] => (false, cell)
  | rangeEvent :: rest =>
      let parts := split ":" rangeEvent in
      let startWeekKey := nth_error parts 0 in
      let endWeekKey := nth_error parts 1 in
      let description := nth_error parts 2 in
      if negb (truthy startWeekKey) || negb (truthy endWeekKey)
      then rangeLoop weekKey defaultColor defaultDesc rest cell
      else
        let startWeekKey := orElse startWeekKey "" in
        let endWeekKey := orElse endWeekKey "" in
        let startYear := parseIntAt (split "-W" startWeekKey) 0 in
        let startWeek := parseIntAt (split "-W" startWeekKey) 1 in
        let endYear := parseIntAt (split "-W" endWeekKey) 0 in
        let endWeek := parseIntAt (split "-W" endWeekKey) 1 in
        let cellYear := parseIntAt (split "-W" weekKey) 0 in
        let cellWeek := parseIntAt (split "-W" weekKey) 1 in
        if isInRange cellYear cellWeek startYear startWeek endYear endWeek then
          let cell := setBackground cell defaultColor in
          let cell := addClass cell "event" in
          let eventDesc := orElse description defaultDesc in
          let currentTitle := orElse (title cell) "" in
          (true,
           setTitle cell
             (eventDesc ++ " (" ++ startWeekKey ++ " to " ++ endWeekKey ++ ")"
              ++ nl ++ currentTitle)%string)
        else rangeLoop weekKey defaultColor defaultDesc rest cell
  end.

(** The helper [applyEventStyle(events, defaultColor, defaultDesc)] of
    [applyEventStyling], for the cell of [weekKey]. *)
Definition applyEventStyle (weekKey : string) (events : list string)
    (defaultColor defaultDesc : string) (cell : Cell) : bool * Cell :=
  let singleEvent := find (isSingleEventFor weekKey) events in
  if truthy singleEvent then
    let cell := setBackground cell defaultColor in
    let cell := addClass cell "event" in
    let description :=
      orElse (nth_error (split ":" (orElse singleEvent "")) 1) defaultDesc in
    let currentTitle := orElse (title cell) "" in
    (true, setTitle cell (description ++ nl ++ currentTitle)%string)
  else
    rangeLoop weekKey defaultColor defaultDesc (filter isRangeEvent events) cell.

(** The [for ... of Object.entries(customEvents)] loop. *)
Fixpoint customLoop (weekKey : string) (customEventTypes : list CustomEventType)
    (entries : list (string * list string)) (cell : Cell) : Cell :=
  match entries with
  | [] => cell
  | (typeName, events) :: rest =>
      let customType :=
        find (fun type => String.eqb (name type) typeName) customEventTypes in
      let cell :=
        match customType with
        | Some customType =>
            if (0 <? List.length events)%nat
            then snd (applyEventStyle weekKey events (color customType) typeName cell)
            else cell
        | None => cell
        end in
      customLoop weekKey customEventTypes rest cell
  end.

(** The part of [applyEventStyling] that probes the event collections. *)
Definition applyCategoryStyling (settings : ChronosSettings) (weekKey : string)
    (cell : Cell) : Cell :=
  let '(hasGreenEvent, cell) :=
    applyEventStyle weekKey (greenEvents settings) "#4CAF50" "Major Life Event" cell in
  if negb hasGreenEvent then
    let '(hasBlueEvent, cell) :=
      applyEventStyle weekKey (blueEvents settings) "#2196F3" "Travel" cell in
    if negb hasBlueEvent then
      let '(hasPinkEvent, cell) :=
        applyEventStyle weekKey (pinkEvents settings) "#E91E63" "Relationship" cell in
      if negb hasPinkEvent then
        let '(hasPurpleEvent, cell) :=
          applyEventStyle weekKey (purpleEvents settings) "#9C27B0"
            "Education/Career" cell in
        if negb hasPurpleEvent then
          customLoop weekKey (customEventTypes settings)
            (JSObject.entries (customEvents settings)) cell
        else cell
      else cell
    else cell
  else cell.

(** [applyEventStyling(cell, weekKey)], with the current instant [now] as an
    argument. *)
Definition applyEventStyling (now : Date) (settings : ChronosSettings)
    (cell : Cell) (weekKey : string) : Cell :=
  let cell := applyCategoryStyling settings weekKey cell in
  let parts := split "-W" weekKey in
  let highlight :=
    match parseIntAt parts 0, parseIntAt parts 1 with
    | Some cellYear, Some weekNum =>
        let cellDate := setFullYear now cellYear in
        let cellDate := setDate cellDate (1 + (weekNum - 1) * 7) in
        (cellDate >? now)
        && (cellDate <? now + 6 * 30 * 24 * 60 * 60 * 1000)
        && arrayIncludes "event" (classList cell)
    | _, _ => false
    end in
  let cell := if highlight then addClass cell "future-event-highlight" else cell in
  if arrayIncludes weekKey (filledWeeks settings) then
    let cell := addClass cell "filled-week" in
    if negb (arrayIncludes "event" (classList cell))
    then setBackground cell "#8bc34a"
    else cell
  else cell.

(* ------------------------------------------------------------------ *)
(** ** Editing a custom event type *)
(* ------------------------------------------------------------------ *)

Fixpoint replaceFirst (p : CustomEventType -> bool) (v : CustomEventType)
    (l : list CustomEventType) : option (list CustomEventType) :=
  match l with
  | [] => None
  | h :: t =>
      if p h then Some (v :: t)
      else option_map (cons h) (replaceFirst p v t)
  end.

(** The click handler of the "Save Changes" button in [showEditTypeModal],
    for the edited [type] and the values of the two inputs.  The result is
    the notice shown, if any, and the settings after the handler. *)
Definition showEditTypeModal_save (type : CustomEventType)
    (nameInput colorInput : string) (settings : ChronosSettings)
    : option string * ChronosSettings :=
  let newName := trim nameInput in
  if String.eqb newName "" then
    (Some "Please enter a name for the event type", settings)%string
  else if negb (String.eqb newName (name type))
          && existsb (fun t => String.eqb (name t) newName) (customEventTypes settings)
  then (Some "An event type with this name already exists", settings)%string
  else
    let events :=
      if negb (String.eqb newName (name type)) then
        let moved :=
          match JSObject.get (customEvents settings) (name type) with
          | Some v => v
          | None => []
          end in
        JSObject.delete (JSObject.set (customEvents settings) newName moved) (name type)
      else customEvents settings in
    match replaceFirst (fun t => String.eqb (name t) (name type))
            {| name := newName; color := colorInput |}
            (customEventTypes settings) with
    | Some types =>
        (Some ("Event type updated to " ++ dquote ++ newName ++ dquote)%string,
         set_custom settings types events)
    | None => (None, set_custom settings (customEventTypes settings) events)
    end.

(* ------------------------------------------------------------------ *)
(** ** Note paths, event collections, type management, manual fill *)
(* ------------------------------------------------------------------ *)

(** [s.endsWith(suffix)] *)
Fixpoint endsWith (suffix s : string) : bool :=
  String.eqb suffix s
  || match s with
     | String _ s' => endsWith suffix s'
     | EmptyString => false
     end.

(** [s.replace(pattern, replacement)] for a string pattern and a replacement
    without [$]: the first occurrence only. *)
Fixpoint replace (pattern replacement s : string) : string :=
  if String.prefix pattern s
  then (replacement ++ drop (String.length pattern) s)%string
  else match s with
       | String c s' => String c (replace pattern replacement s')
       | EmptyString => EmptyString
       end.

(** [getFullPath(fileName)], for the [notesFolder] setting. *)
Definition getFullPath (notesFolder fileName : string) : string :=
  if negb (String.eqb notesFolder "") && negb (String.eqb (trim notesFolder) "")
  then
    let folderPath :=
      if negb (endsWith "/" notesFolder) then (notesFolder ++ "/")%string
      else notesFolder in
    (folderPath ++ fileName)%string
  else fileName.

(** The file name [createOrOpenWeekNote] builds for the date [date]. *)
Definition weekNoteFileName (date : Date) : string :=
  let year := getFullYear date in
  let weekNum := getISOWeekNumber date in
  (toString year ++ "-W" ++ padStart 2 "0" (toString weekNum) ++ ".md")%string.

(** The file name the click handler of a cell builds from its week key. *)
Definition cellNoteFileName (weekKey : string) : string :=
  (replace "W" "-W" weekKey ++ ".md")%string.

(** The week key [renderWeeksGrid] gives the cell with ordinal [weekIndex]. *)
Definition cellWeekKey (birthdayDate : Date) (weekIndex : Z) : string :=
  let cellDate := setDate birthdayDate (getDate birthdayDate + weekIndex * 7) in
  let cellYear := getFullYear cellDate in
  let cellWeek := getISOWeekNumber cellDate in
  (toString cellYear ++ "-W" ++ padStart 2 "0" (toString cellWeek))%string.



(** The click handler of the "Add Type" button of the type manager, for the
    values of its two inputs: the notice shown and the settings after it. *)
Definition addType_click (nameInput colorInput : string) (settings : ChronosSettings)
    : string * ChronosSettings :=
  let name' := trim nameInput in
  if String.eqb name' "" then
    ("Please enter a name for the event type"%string, settings)
  else if existsb (fun type => String.eqb (name type) name') (customEventTypes settings)
  then ("An event type with this name already exists"%string, settings)
  else
    (("Event type " ++ dquote ++ name' ++ dquote ++ " added")%string,
     set_custom settings
       (customEventTypes settings ++ [{| name := name'; color := colorInput |}])
       (JSObject.set (customEvents settings) name' [])).

(** The click handler of the "Delete" button of a custom type; [confirmed]
    is the answer to the confirmation dialog. *)
Definition deleteType_click (type : CustomEventType) (confirmed : bool)
    (settings : ChronosSettings) : option string * ChronosSettings :=
  if confirmed then
    (Some ("Event type " ++ dquote ++ name type ++ dquote ++ " deleted")%string,
     set_custom settings
       (filter (fun t => negb (String.eqb (name t) (name type)))
          (customEventTypes settings))
       (JSObject.delete (customEvents settings) (name type)))
  else (None, settings).

(** [a.splice(a.indexOf(x), 1)] when [x] occurs in [a]. *)
Fixpoint removeFirst (x : string) (a : list string) : list string :=
  match a with
  | [] => []
  | h :: t => if String.eqb h x then t else h :: removeFirst x t
  end.

(** [cell.removeClass(cls)] *)
Definition removeClass (c : Cell) (cls : string) : Cell :=
  {| backgroundColor := backgroundColor c;
     classList := filter (fun x => negb (String.eqb x cls)) (classList c);
     title := title c |}.

(** The [contextmenu] handler of a cell (manual fill), for the cell with
    ordinal [weekIndex] and key [weekKey]. *)
Definition cell_contextmenu (weekIndex ageInWeeks : Z) (weekKey : string)
    (settings : ChronosSettings) (cell : Cell) : ChronosSettings * Cell :=
  if enableAutoFill settings || (weekIndex <=? ageInWeeks) then (settings, cell)
  else if arrayIncludes weekKey (filledWeeks settings) then
    (set_filledWeeks settings (removeFirst weekKey (filledWeeks settings)),
     removeClass cell "filled-week")
  else
    (set_filledWeeks settings (filledWeeks settings ++ [weekKey]),
     setBackground (addClass cell "filled-week") "#8bc34a").

(* ------------------------------------------------------------------ *)
(** ** Vocabulary of the statements *)
(* ------------------------------------------------------------------ *)

(** Every character of [s] satisfies [p]. *)
Fixpoint allChars (p : ascii -> bool) (s : string) : bool :=
  match s with
  | String c s' => p c && allChars p s'
  | EmptyString => true
  end.

(** A decimal digit. *)
Definition isDigit (c : ascii) : bool := (48 <=? code c) && (code c <=? 57).

(** [c] is not the character [c0]. *)
Definition differs (c0 c : ascii) : bool := negb (Ascii.eqb c c0).

(** The characters a printed week key is made of. *)
Definition keyChar (c : ascii) : bool :=
  isDigit c || Ascii.eqb c "-" || Ascii.eqb c "W".

(** The value of a decimal numeral read from the left, after [acc]. *)
Fixpoint uintValue (d : Decimal.uint) (acc : Z) : Z :=
  match d with
  | Decimal.Nil => acc
  | Decimal.D0 l => uintValue l (acc * 10 + 0)
  | Decimal.D1 l => uintValue l (acc * 10 + 1)
  | Decimal.D2 l => uintValue l (acc * 10 + 2)
  | Decimal.D3 l => uintValue l (acc * 10 + 3)
  | Decimal.D4 l => uintValue l (acc * 10 + 4)
  | Decimal.D5 l => uintValue l (acc * 10 + 5)
  | Decimal.D6 l => uintValue l (acc * 10 + 6)
  | Decimal.D7 l => uintValue l (acc * 10 + 7)
  | Decimal.D8 l => uintValue l (acc * 10 + 8)
  | Decimal.D9 l => uintValue l (acc * 10 + 9)
  end.

(** The record [saveEvent] stores for a date range:
    [`${startWeekKey}:${endWeekKey}:${this.eventDescription}`]. *)
Definition rangeEventData (startWeekKey endWeekKey description : string) : string :=
  (startWeekKey ++ ":" ++ endWeekKey ++ ":" ++ description)%string.

(** [`${MONTH_NAMES[currentMonth]} ${currentYear}`] *)
Definition monthLabel (month year : Z) : string :=
  (monthName month ++ " " ++ toString year)%string.

(** Months counted from year 0. *)
Definition monthId (t : Date) : Z := 12 * getFullYear t + getMonth t.

(** The order [sort] puts the markers in. *)
Definition weekIndex_le (a b : MonthMarker) : Prop := weekIndex a <= weekIndex b.

(** The marker the loop of [calculateMonthMarkers] pushes on day [k] after
    the birthday. *)
Definition markerForDay (birthdayDate : Date) (k : Z) (mk : MonthMarker) : Prop :=
  let t := birthdayDate + k * msPerDay in
  weekIndex mk = k / 7
  /\ label mk = monthName (getMonth t)
  /\ isFirstOfYear mk = (getMonth t =? 0)
  /\ fullLabel mk = monthLabel (getMonth t) (getFullYear t).




(** The record [saveEvent] stores for a single date:
    [`${weekKey}:${this.eventDescription}`]. *)
Definition singleEventData (weekKey description : string) : string :=
  (weekKey ++ ":" ++ description)%string.

(* ------------------------------------------------------------------ *)
(** ** Sample settings, dates and cells *)
(* ------------------------------------------------------------------ *)

(** [DEFAULT_SETTINGS], for the fields of the embedding. *)
Definition DEFAULT_SETTINGS : ChronosSettings :=
  {| lifespan := 90; greenEvents := []; blueEvents := []; zoomLevel := 1;
     pinkEvents := []; purpleEvents := []; customEventTypes := [];
     customEvents := []; enableAutoFill := true; autoFillDay := 1;
     filledWeeks := [] |}.

Definition dec31_2024 : Date := newDate 2024 11 31.

Definition jan01_2024 : Date := newDate 2024 0 1.

Definition jan15_2024 : Date := newDate 2024 0 15.

Definition monday_jan08_2024 : Date := newDate 2024 0 8.

Definition birthday_2003_07_18 : Date := newDate 2003 6 18.

Definition typeHobby : CustomEventType := {| name := "Hobby"; color := "#FF9800" |}.

Definition typeSport : CustomEventType := {| name := "Sport"; color := "#00BCD4" |}.

Definition settingsWithTwoTypes : ChronosSettings :=
  {| lifespan := 90; greenEvents := []; blueEvents := ["2024-W05:Lisbon"%string];
     zoomLevel := 1;
     pinkEvents := []; purpleEvents := [];
     customEventTypes := [typeHobby; typeSport];
     customEvents := [("Hobby", ["2024-W02:Chess club"]);
                      ("Sport", ["2024-W02:Marathon"])]%string;
     enableAutoFill := true; autoFillDay := 1; filledWeeks := [] |}.

(** Settings with auto-fill switched off, as manual fill requires. *)
Definition manualFillSettings : ChronosSettings :=
  {| lifespan := 90; greenEvents := []; blueEvents := []; zoomLevel := 1;
     pinkEvents := []; purpleEvents := []; customEventTypes := [];
     customEvents := []; enableAutoFill := false; autoFillDay := 1;
     filledWeeks := [] |}.

Definition futureCell : Cell :=
  {| backgroundColor := "#d8e2e6";
     classList := ["chronos-grid-cell"; "future"];
     title := Some "Week 2, 2024" |}%string.

(* ------------------------------------------------------------------ *)
(** ** The embedding on sample inputs *)
(* ------------------------------------------------------------------ *)

Example y2024_12_31 : (getFullYear (newDate 2024 11 31), getMonth (newDate 2024 11 31),
                       getDate (newDate 2024 11 31), getDay (newDate 2024 11 31))
                      = (2024, 11, 31, 2).
Proof. reflexivity. Qed.

Example epoch_day : (getFullYear 0, getMonth 0, getDate 0, getDay 0) = (1970, 0, 1, 4).
Proof. reflexivity. Qed.

Example leap_day_2024 :
  (getMonth (newDate 2024 1 29), getDate (newDate 2024 1 29),
   getMonth (newDate 2023 1 29), getDate (newDate 2023 1 29)) = (1, 29, 2, 1).
Proof. reflexivity. Qed.

Example getFullWeekAge_examples :
  (getFullWeekAge (newDate 2003 6 18) (newDate 2003 6 18),
   getFullWeekAge (newDate 2000 0 1) (newDate 2000 0 8),
   getFullWeekAge (newDate 2000 0 8) (newDate 2000 0 1)) = (0, 1, -1).
Proof. reflexivity. Qed.

Example calculateYearPosition_decade :
  calculateYearPosition 10 16 2
  = calculateYearPosition 9 16 2 + (16 + 2) + (DECADE_GAP - 2).
Proof. reflexivity. Qed.

Example getISOWeekNumber_examples :
  (getISOWeekNumber (newDate 2024 0 1), getISOWeekNumber (newDate 2020 11 31),
   getISOWeekNumber (newDate 2021 0 3), getISOWeekNumber (newDate 2021 0 4))
  = (1, 53, 53, 1).
Proof. reflexivity. Qed.


Local Open Scope string_scope.

Example split_colon :
  split ":" "2024-W01:2024-W03:Trip" = ["2024-W01"; "2024-W03"; "Trip"].
Proof. reflexivity. Qed.

Example split_key : split "-W" "2024-W01" = ["2024"; "01"].
Proof. reflexivity. Qed.

Example split_edges : split ":" ":a::" = [""; "a"; ""; ""].
Proof. reflexivity. Qed.

Example parseInt_examples :
  (parseInt "01", parseInt " -12px", parseInt "0x1f", parseInt "W3", parseInt "")
  = (Some 1, Some (-12), Some 31, None, None).
Proof. reflexivity. Qed.

Example padStart_examples :
  (padStart 2 "0" (toString 7), padStart 2 "0" (toString 53), toString (-4))
  = ("07", "53", "-4").
Proof. reflexivity. Qed.

Example trim_example : trim "  Road trip " = "Road trip".
Proof. reflexivity. Qed.

Local Close Scope string_scope.

(* ------------------------------------------------------------------ *)
(** ** Facts about the calendar *)
(* ------------------------------------------------------------------ *)

(** [lia] after turning divisions by constants into their defining equations. *)
Ltac zdiv := Z.div_mod_to_equations; lia.

Section Calendar.

Lemma mod100_mod4 (y : Z) : y mod 100 = 0 -> y mod 4 = 0.
Proof.
  intros H. rewrite <- (Z.mod_mod_divide y 100 4) by (exists 25; reflexivity).
  now rewrite H.
Qed.

Lemma mod400_mod100 (y : Z) : y mod 400 = 0 -> y mod 100 = 0.
Proof.
  intros H. rewrite <- (Z.mod_mod_divide y 400 100) by (exists 4; reflexivity).
  now rewrite H.
Qed.

Lemma DayFromYear_succ (y : Z) :
  DayFromYear (y + 1) = DayFromYear y + DaysInYear y.
Proof.
  unfold DayFromYear, DaysInYear.
  assert (E4 : (y + 1 - 1969) / 4
               = (y - 1969) / 4 + (if y mod 4 =? 0 then 1 else 0))
    by (destruct (Z.eqb_spec (y mod 4) 0); zdiv).
  assert (E100 : (y + 1 - 1901) / 100
                 = (y - 1901) / 100 + (if y mod 100 =? 0 then 1 else 0))
    by (destruct (Z.eqb_spec (y mod 100) 0); zdiv).
  assert (E400 : (y + 1 - 1601) / 400
                 = (y - 1601) / 400 + (if y mod 400 =? 0 then 1 else 0))
    by (destruct (Z.eqb_spec (y mod 400) 0); zdiv).
  rewrite E4, E100, E400.
  pose proof (mod100_mod4 y). pose proof (mod400_mod100 y).
  destruct (Z.eqb_spec (y mod 4) 0); destruct (Z.eqb_spec (y mod 100) 0);
    destruct (Z.eqb_spec (y mod 400) 0); cbn [negb]; lia.
Qed.

Lemma DaysInYear_range (y : Z) : DaysInYear y = 365 \/ DaysInYear y = 366.
Proof.
  unfold DaysInYear.
  destruct (y mod 4 =? 0), (y mod 100 =? 0), (y mod 400 =? 0); cbn; auto.
Qed.

Lemma DayFromYear_le (y1 y2 : Z) : y1 <= y2 -> DayFromYear y1 <= DayFromYear y2.
Proof. unfold DayFromYear. intros. zdiv. Qed.

Lemma DayFromYear_lt (y1 y2 : Z) : y1 < y2 -> DayFromYear y1 < DayFromYear y2.
Proof.
  intros H. pose proof (DayFromYear_le (y1 + 1) y2 ltac:(lia)).
  rewrite DayFromYear_succ in *. pose proof (DaysInYear_range y1). lia.
Qed.

Lemma YearFromDay_spec (d : Z) :
  DayFromYear (YearFromDay d) <= d < DayFromYear (YearFromDay d + 1).
Proof.
  unfold YearFromDay.
  set (y := 1970 + 400 * d / 146097).
  assert (Hy : 146097 * (y - 1970) <= 400 * d < 146097 * (y - 1970) + 146097)
    by (subst y; zdiv).
  clearbody y.
  destruct (Z.ltb_spec d (DayFromYear y)).
  - replace (y - 1 + 1) with y by lia. split; [|assumption].
    unfold DayFromYear in *. zdiv.
  - destruct (Z.leb_spec (DayFromYear (y + 1)) d).
    + split; [assumption|]. unfold DayFromYear in *. zdiv.
    + lia.
Qed.

Lemma YearFromDay_unique (d y : Z) :
  DayFromYear y <= d < DayFromYear (y + 1) -> YearFromDay d = y.
Proof.
  intros H. pose proof (YearFromDay_spec d) as S.
  destruct (Z.lt_trichotomy (YearFromDay d) y) as [L | [E | G]]; [|exact E|].
  - pose proof (DayFromYear_le (YearFromDay d + 1) y ltac:(lia)). lia.
  - pose proof (DayFromYear_le (y + 1) (YearFromDay d) ltac:(lia)). lia.
Qed.

Lemma YearFromDay_mono (d1 d2 : Z) : d1 <= d2 -> YearFromDay d1 <= YearFromDay d2.
Proof.
  intros H. pose proof (YearFromDay_spec d1). pose proof (YearFromDay_spec d2).
  destruct (Z.le_gt_cases (YearFromDay d1) (YearFromDay d2)); [assumption|].
  pose proof (DayFromYear_le (YearFromDay d2 + 1) (YearFromDay d1) ltac:(lia)). lia.
Qed.

Lemma Day_MakeDate (d tod : Z) :
  0 <= tod < msPerDay -> Day (MakeDate d tod) = d.
Proof. unfold Day, MakeDate, msPerDay. intros. zdiv. Qed.

Lemma Day_shift (t k : Z) : Day (t + k * msPerDay) = Day t + k.
Proof. unfold Day, msPerDay. zdiv. Qed.

Lemma DayWithinYear_range (t : Date) :
  0 <= DayWithinYear t < DaysInYear (YearFromTime t).
Proof.
  unfold DayWithinYear, YearFromTime.
  pose proof (YearFromDay_spec (Day t)) as H.
  rewrite DayFromYear_succ in H. lia.
Qed.

Lemma InLeapYear_spec (t : Date) :
  DaysInYear (YearFromTime t) = 365 + InLeapYear t
  /\ (InLeapYear t = 0 \/ InLeapYear t = 1).
Proof.
  unfold InLeapYear. pose proof (DaysInYear_range (YearFromTime t)) as [E | E];
    rewrite E; cbn; lia.
Qed.

Lemma monthOfYearDay_range (leap dwy : Z) : 0 <= monthOfYearDay leap dwy <= 11.
Proof.
  unfold monthOfYearDay.
  repeat match goal with |- context [?a <? ?b] => destruct (Z.ltb_spec a b) end; lia.
Qed.

Lemma MonthFromTime_range (t : Date) : 0 <= MonthFromTime t <= 11.
Proof. apply monthOfYearDay_range. Qed.

Lemma monthOfYearDay_mono (leap d1 d2 : Z) :
  d1 <= d2 -> monthOfYearDay leap d1 <= monthOfYearDay leap d2.
Proof.
  intros H. unfold monthOfYearDay.
  repeat match goal with |- context [?a <? ?b] => destruct (Z.ltb_spec a b) end; lia.
Qed.

(** Setting the day of the month moves a date by whole days. *)
Lemma MakeDay_of_date (t : Date) (n : Z) :
  MakeDay (YearFromTime t) (MonthFromTime t) n = Day t + (n - DateFromTime t).
Proof.
  pose proof (MonthFromTime_range t) as Hm.
  unfold MakeDay, DateFromTime, DayWithinYear.
  replace (MonthFromTime t / 12) with 0 by zdiv.
  replace (MonthFromTime t mod 12) with (MonthFromTime t) by zdiv.
  rewrite Z.add_0_r. fold (InLeapYear t). lia.
Qed.

Lemma setDate_shift (t : Date) (n : Z) :
  setDate t n = t + (n - getDate t) * msPerDay.
Proof.
  unfold setDate, getDate. rewrite MakeDay_of_date.
  unfold MakeDate, Day, TimeWithinDay, msPerDay. zdiv.
Qed.

Lemma setDate_add (t : Date) (k : Z) :
  setDate t (getDate t + k) = t + k * msPerDay.
Proof. rewrite setDate_shift. f_equal. f_equal. lia. Qed.

End Calendar.

(* ------------------------------------------------------------------ *)
(** ** Week keys *)
(* ------------------------------------------------------------------ *)

Section WeekKeys.

Lemma arrayIncludes_In (x : string) (a : list string) :
  arrayIncludes x a = true <-> In x a.
Proof.
  unfold arrayIncludes. rewrite existsb_exists. split.
  - intros (y & Hy & E). apply String.eqb_eq in E. now subst.
  - intros H. exists x. split; [assumption | apply String.eqb_refl].
Qed.

Lemma arrayIncludes_not_In (x : string) (a : list string) :
  arrayIncludes x a = false <-> ~ In x a.
Proof.
  rewrite <- arrayIncludes_In. destruct (arrayIncludes x a); split; congruence.
Qed.

Lemma getDate_newDate_jan1 (year : Z) : getDate (newDate year 0 1) = 1.
Proof.
  unfold newDate, getDate, DateFromTime, MonthFromTime, InLeapYear, DayWithinYear,
    YearFromTime.
  set (yr := if (0 <=? year) && (year <=? 99) then 1900 + year else year).
  rewrite Day_MakeDate by (unfold msPerDay; lia).
  assert (E : MakeDay yr 0 1 = DayFromYear yr)
    by (unfold MakeDay; cbn; rewrite !Z.add_0_r; lia).
  rewrite E, (YearFromDay_unique (DayFromYear yr) yr).
  - rewrite Z.sub_diag. reflexivity.
  - rewrite DayFromYear_succ. pose proof (DaysInYear_range yr). lia.
Qed.

(** The week key of a date depends on its calendar day only. *)
Lemma getWeekKeyFromDate_same_day (a b : Date) :
  Day a = Day b -> getWeekKeyFromDate a = getWeekKeyFromDate b.
Proof.
  intros E.
  unfold getWeekKeyFromDate, getISOWeekNumber, shiftedToThursday, getFullYear,
    setHours0, YearFromTime.
  now rewrite E.
Qed.


(** [getWeekDateRange] starts from the Monday of the week that contains
    January 1st; [convertWeekToDate] starts from the Monday of ISO week 1.
    The two agree exactly in the years whose January 1st falls on Monday to
    Thursday, and are a week apart in the others. *)
Lemma firstDayOfWeek_vs_weekToDate (year week : Z) :
  let dow := getDay (newDate year 0 1) in
  firstDayOfWeek year week
  = weekToDate year week
    - (if (1 <=? dow) && (dow <=? 4) then 0 else 7 * msPerDay).
Proof.
  intros dow. unfold firstDayOfWeek, weekToDate. fold dow.
  assert (Hd : 0 <= dow < 7) by (apply Z.mod_pos_bound; lia).
  rewrite !setDate_shift, getDate_newDate_jan1.
  generalize (newDate year 0 1) as jan1. clearbody dow. intros jan1.
  destruct (Z.eqb_spec dow 0) as [E0 | N0];
    destruct (Z.leb_spec dow 4); destruct (Z.leb_spec 1 dow); cbn [andb]; lia.
Qed.

(** The loop of [getWeekKeysBetweenDates] is given enough fuel: once the
    remaining span is below [fuel] weeks, more fuel changes nothing. *)
Lemma weekKeysLoop_enough_fuel (fuel extra : nat) :
  forall endDate currentDate weekKeys,
    endDate - currentDate < Z.of_nat fuel * (7 * msPerDay)
    \/ (fuel = 0%nat /\ endDate <= currentDate) ->
    weekKeysLoop (fuel + extra) endDate currentDate weekKeys
    = weekKeysLoop fuel endDate currentDate weekKeys.
Proof.
  assert (Hms : 0 < msPerDay) by reflexivity.
  induction fuel as [|fuel IH]; intros endDate cur acc H.
  - assert (Hle : endDate <= cur) by lia.
    destruct extra as [|extra]; [reflexivity|]. cbn [Nat.add weekKeysLoop].
    destruct (Z.ltb_spec cur endDate); [lia | reflexivity].
  - cbn [Nat.add weekKeysLoop].
    destruct (Z.ltb_spec cur endDate); [|reflexivity].
    rewrite setDate_add.
    destruct (cur + 7 * msPerDay >? endDate); [reflexivity|].
    apply IH. left. lia.
Qed.

Lemma getWeekKeysBetweenDates_fuel (endDate currentDate : Date) :
  let fuel := Z.to_nat ((endDate - currentDate) / (7 * msPerDay) + 1) in
  endDate - currentDate < Z.of_nat fuel * (7 * msPerDay)
  \/ (fuel = 0%nat /\ endDate <= currentDate).
Proof.
  cbv zeta. unfold msPerDay.
  destruct (Z.le_gt_cases 0 ((endDate - currentDate) / (7 * 86400000) + 1)) as [H | H].
  - left. rewrite Z2Nat.id by assumption. zdiv.
  - right. split; [lia | zdiv].
Qed.

Lemma weekKeysLoop_incl (fuel : nat) :
  forall endDate currentDate weekKeys,
    incl weekKeys (weekKeysLoop fuel endDate currentDate weekKeys).
Proof.
  induction fuel as [|fuel IH]; intros endDate cur acc; cbn [weekKeysLoop];
    [apply incl_refl|].
  destruct (cur <? endDate); [|apply incl_refl].
  destruct (_ >? endDate); [apply incl_refl|].
  eapply incl_tran; [|apply IH].
  destruct (arrayIncludes _ acc); [apply incl_refl | apply incl_appl, incl_refl].
Qed.

(** What [getWeekKeysBetweenDates] does guarantee: the result holds the key
    of its first argument and the key of the later of the two dates. *)
Lemma getWeekKeysBetweenDates_keys (startDate endDate : Date) :
  In (getWeekKeyFromDate startDate) (getWeekKeysBetweenDates startDate endDate)
  /\ In (getWeekKeyFromDate (Z.max startDate endDate))
        (getWeekKeysBetweenDates startDate endDate).
Proof.
  assert (Hend : forall k first keys,
             In first keys ->
             In first (if arrayIncludes k keys then keys else keys ++ [k])
             /\ In k (if arrayIncludes k keys then keys else keys ++ [k])).
  { intros k first keys Hin. destruct (arrayIncludes k keys) eqn:E.
    - apply arrayIncludes_In in E. now split.
    - split; apply in_or_app; [now left | right; now left]. }
  unfold getWeekKeysBetweenDates.
  destruct (Z.gtb_spec startDate endDate) as [Hgt | Hle].
  - replace (Z.max startDate endDate) with startDate by lia.
    apply Hend. apply weekKeysLoop_incl. now left.
  - replace (Z.max startDate endDate) with endDate by lia.
    apply Hend. apply weekKeysLoop_incl. now left.
Qed.

End WeekKeys.

(** C1: [getWeekKeyFromDate] takes the year of the week key from the date
    itself, while the week number is counted in the year of the date shifted
    to the Thursday of its week.  December 31st 2024 is a Tuesday of ISO week
    1 of 2025: the shifted date lies in 2025 and the week number is 1, yet
    the key carries the year 2024. *)
Theorem getWeekKeyFromDate_year_of_unshifted_date :
  getFullYear dec31_2024 = 2024
  /\ getFullYear (shiftedToThursday dec31_2024) = 2025
  /\ getISOWeekNumber dec31_2024 = 1
  /\ getWeekKeyFromDate dec31_2024 = "2024-W01"%string
  /\ getWeekKeyFromDate dec31_2024 = getWeekKeyFromDate (newDate 2024 0 1).
Proof. repeat split; vm_compute; reflexivity. Qed.

(** C2: the key of ISO week 1 of 2025 does not survive the round trip.
    [convertWeekToDate] returns its Monday, December 30th 2024, and
    [getWeekKeyFromDate] maps that date to the key of week 1 of 2024. *)
Theorem week_key_round_trip_2025_W01 :
  convertWeekToDate 0 "2025-W01"%string = Normal "2024-12-30"%string
  /\ dateFromISODateString 0 "2024-12-30"%string = Some (weekToDate 2025 1)
  /\ getWeekKeyFromDate (weekToDate 2025 1) = "2024-W01"%string
  /\ getWeekKeyFromDate (weekToDate 2025 1) <> formatWeekKey 2025 1.
Proof.
  repeat split; try (vm_compute; reflexivity).
  vm_compute. discriminate.
Qed.

(** C3: with the later date first, [getWeekKeysBetweenDates] returns the
    key of the later date alone; with the earlier date first it returns the
    three keys of the interval.  The two results differ and the first does
    not contain the key of the earlier date. *)
Theorem getWeekKeysBetweenDates_reversed_arguments :
  getWeekKeysBetweenDates jan01_2024 jan15_2024
  = ["2024-W01"; "2024-W02"; "2024-W03"]%string
  /\ getWeekKeysBetweenDates jan15_2024 jan01_2024 = ["2024-W03"]%string
  /\ ~ In (getWeekKeyFromDate jan01_2024)
         (getWeekKeysBetweenDates jan15_2024 jan01_2024).
Proof.
  repeat split; try (vm_compute; reflexivity).
  vm_compute. intros [H | []]. discriminate H.
Qed.

(** C8: for the key of week 1 of 2021, a year whose January 1st is a
    Friday, [getWeekDateRange] starts on December 28th 2020, a week before
    the Monday of that ISO week, January 4th 2021, which is what
    [convertWeekToDate] returns.  The last day is six days after the first. *)
Theorem getWeekDateRange_2021_W01 :
  getWeekDateRange "2021-W01"%string = "Dec 28 - Jan 3"%string
  /\ firstDayOfWeek 2021 1 = newDate 2020 11 28
  /\ weekToDate 2021 1 = newDate 2021 0 4
  /\ convertWeekToDate 0 "2021-W01"%string = Normal "2021-01-04"%string
  /\ lastDayOfWeek (firstDayOfWeek 2021 1) = firstDayOfWeek 2021 1 + 6 * msPerDay.
Proof. repeat split; vm_compute; reflexivity. Qed.

(* ------------------------------------------------------------------ *)
(** ** Auto-fill *)
(* ------------------------------------------------------------------ *)

Section AutoFill.

Lemma count_occ_snoc_new (x : string) (a : list string) :
  ~ In x a -> count_occ string_dec (a ++ [x]) x = 1%nat.
Proof.
  intros H. rewrite count_occ_app.
  rewrite (proj1 (count_occ_not_In string_dec a x) H). cbn.
  destruct (string_dec x x); congruence.
Qed.

(** C6: [checkAndAutoFill] returns [false] and leaves the settings alone
    when auto-fill is disabled, when the weekday of [now] is not the
    configured day, or when the key of the current week is already among the
    filled weeks.  Otherwise it appends that key and returns [true]; a second
    call at any instant [now'] of the same day then returns [false], changes
    nothing, and the key occurs exactly once among the filled weeks. *)
Theorem checkAndAutoFill_spec (now now' : Date) (settings : ChronosSettings)
    (Hday : Day now' = Day now) :
  let key := getWeekKeyFromDate now in
  let qualifies :=
    enableAutoFill settings = true
    /\ getDay now = autoFillDay settings
    /\ ~ In key (filledWeeks settings) in
  (~ qualifies -> checkAndAutoFill now settings = (false, settings))
  /\ (qualifies ->
      let settings1 := set_filledWeeks settings (filledWeeks settings ++ [key]) in
      checkAndAutoFill now settings = (true, settings1)
      /\ checkAndAutoFill now' settings1 = (false, settings1)
      /\ count_occ string_dec (filledWeeks settings1) key = 1%nat).
Proof.
  intros key qualifies. subst qualifies. unfold checkAndAutoFill. fold key.
  split.
  - intros Hn.
    destruct (enableAutoFill settings); cbn [negb]; [|reflexivity].
    destruct (Z.eqb_spec (getDay now) (autoFillDay settings)); cbn [negb];
      [|reflexivity].
    destruct (arrayIncludes key (filledWeeks settings)) eqn:E; [reflexivity|].
    exfalso. apply Hn. repeat split; try assumption.
    now apply arrayIncludes_not_In.
  - intros (He & Hd & Hk).
    rewrite He, Hd, Z.eqb_refl. cbn [negb].
    rewrite (proj2 (arrayIncludes_not_In _ _) Hk).
    split; [reflexivity|]. split.
    + cbn [enableAutoFill autoFillDay filledWeeks set_filledWeeks].
      rewrite He. cbn [negb].
      assert (Ed : getDay now' = getDay now) by (unfold getDay, WeekDay; now rewrite Hday).
      rewrite Ed, Hd, Z.eqb_refl. cbn [negb].
      rewrite (getWeekKeyFromDate_same_day now' now Hday). fold key.
      rewrite (proj2 (arrayIncludes_In key (filledWeeks settings ++ [key])));
        [reflexivity|].
      apply in_or_app. right. now left.
    + cbn [filledWeeks set_filledWeeks]. now apply count_occ_snoc_new.
Qed.

End AutoFill.

Lemma checkAndAutoFill_spec_witness :
  Day (monday_jan08_2024 + 3600000) = Day monday_jan08_2024
  /\ checkAndAutoFill monday_jan08_2024 DEFAULT_SETTINGS
     = (true, set_filledWeeks DEFAULT_SETTINGS ["2024-W02"%string])
  /\ checkAndAutoFill (monday_jan08_2024 + 3600000)
       (set_filledWeeks DEFAULT_SETTINGS ["2024-W02"%string])
     = (false, set_filledWeeks DEFAULT_SETTINGS ["2024-W02"%string]).
Proof.
  assert (Hday : Day (monday_jan08_2024 + 3600000) = Day monday_jan08_2024)
    by reflexivity.
  split; [exact Hday|].
  destruct (checkAndAutoFill_spec monday_jan08_2024 (monday_jan08_2024 + 3600000)
              DEFAULT_SETTINGS Hday) as [_ H].
  assert (Hq : enableAutoFill DEFAULT_SETTINGS = true
               /\ getDay monday_jan08_2024 = autoFillDay DEFAULT_SETTINGS
               /\ ~ In (getWeekKeyFromDate monday_jan08_2024)
                      (filledWeeks DEFAULT_SETTINGS)).
  { split; [reflexivity|]. split; [reflexivity|]. intros []. }
  destruct (H Hq) as (H1 & H2 & _).
  split; [exact H1 | exact H2].
Defined.

(* ------------------------------------------------------------------ *)
(** ** Zoom *)
(* ------------------------------------------------------------------ *)

Section Zoom.

Local Open Scope Q_scope.

(** C10: from a zoom level inside [0.1, 3.0], [zoomIn] yields
    [min(3.0, zoomLevel + 0.1)] and [zoomOut] yields
    [max(0.1, zoomLevel - 0.1)], both inside [0.1, 3.0]; [fitToScreen]
    clamps whatever ratio it computed into [0.1, 3.0]. *)
Theorem zoomLevel_stays_in_bounds (zoomLevel zoomRatio : Q)
    (Hz : (1 # 10) <= zoomLevel <= 3) :
  zoomIn zoomLevel == Qmin 3 (zoomLevel + (1 # 10))
  /\ zoomOut zoomLevel == Qmax (1 # 10) (zoomLevel - (1 # 10))
  /\ (1 # 10) <= zoomIn zoomLevel <= 3
  /\ (1 # 10) <= zoomOut zoomLevel <= 3
  /\ (1 # 10) <= fitToScreen zoomRatio <= 3.
Proof.
  destruct Hz as [Hlo Hhi].
  split; [reflexivity|]. split; [reflexivity|].
  unfold zoomIn, zoomOut, fitToScreen. repeat split.
  - apply Q.min_glb; lra.
  - apply Q.le_min_l.
  - apply Q.le_max_l.
  - apply Q.max_lub; lra.
  - apply Q.le_max_l.
  - apply Q.max_lub; [lra | apply Q.le_min_l].
Qed.

End Zoom.

Lemma zoomLevel_stays_in_bounds_witness :
  ((1 # 10) <= 3 <= 3)%Q
  /\ ((1 # 10) <= zoomIn 3 <= 3)%Q
  /\ ((1 # 10) <= zoomOut 3 <= 3)%Q
  /\ ((1 # 10) <= fitToScreen 50 <= 3)%Q.
Proof.
  assert (H : ((1 # 10) <= 3 <= 3)%Q) by (split; lra).
  split; [exact H|].
  destruct (zoomLevel_stays_in_bounds 3 50 H) as (_ & _ & H1 & H2 & H3).
  split; [exact H1|]. split; [exact H2 | exact H3].
Defined.

(* ------------------------------------------------------------------ *)
(** ** Renaming a custom event type *)
(* ------------------------------------------------------------------ *)

Section Rename.

Local Open Scope string_scope.



End Rename.


(* ------------------------------------------------------------------ *)
(** ** Precedence of the event categories *)
(* ------------------------------------------------------------------ *)

Section Precedence.

Local Open Scope string_scope.

(** Among the built-in collections the first match wins: once a collection
    matches, the later ones and the custom types are not probed. *)
Lemma green_match_wins (settings : ChronosSettings) (weekKey : string) (cell : Cell) :
  fst (applyEventStyle weekKey (greenEvents settings) "#4CAF50" "Major Life Event" cell)
  = true ->
  applyCategoryStyling settings weekKey cell
  = snd (applyEventStyle weekKey (greenEvents settings) "#4CAF50" "Major Life Event" cell).
Proof.
  unfold applyCategoryStyling.
  destruct (applyEventStyle weekKey (greenEvents settings) _ _ cell) as [b c].
  cbn. intros ->. reflexivity.
Qed.

(** C5: the loop over the custom types does not stop at the first match.
    With an event in week 2 of 2024 in both custom collections, the cell ends
    with the colour of the second type, "Sport", and with both descriptions
    in its title; styling from two categories is applied, and the colour is
    that of the last match. *)
Theorem custom_types_last_match_wins :
  fst (applyEventStyle "2024-W02" ["2024-W02:Chess club"] (color typeHobby) "Hobby"
         futureCell) = true
  /\ backgroundColor (applyCategoryStyling settingsWithTwoTypes "2024-W02" futureCell)
     = color typeSport
  /\ title (applyCategoryStyling settingsWithTwoTypes "2024-W02" futureCell)
     = Some ("Marathon" ++ nl ++ "Chess club" ++ nl ++ "Week 2, 2024")%string
  /\ applyCategoryStyling settingsWithTwoTypes "2024-W02" futureCell
     <> snd (applyEventStyle "2024-W02" ["2024-W02:Chess club"] (color typeHobby)
               "Hobby" futureCell).
Proof.
  split; [vm_compute; reflexivity|].
  split; [vm_compute; reflexivity|].
  split; [vm_compute; reflexivity|].
  vm_compute. discriminate.
Qed.

End Precedence.

(* ------------------------------------------------------------------ *)
(** ** Facts about strings, printing and parsing *)
(* ------------------------------------------------------------------ *)

Section Strings.

Local Open Scope string_scope.

Lemma append_assoc (a b c : string) : (a ++ b) ++ c = a ++ (b ++ c).
Proof. induction a as [|x a IH]; cbn; [reflexivity | now rewrite IH]. Qed.

Lemma length_append (a b : string) :
  String.length (a ++ b) = (String.length a + String.length b)%nat.
Proof. induction a as [|x a IH]; cbn; [reflexivity | now rewrite IH]. Qed.

Lemma allChars_append (p : ascii -> bool) (a b : string) :
  allChars p (a ++ b) = allChars p a && allChars p b.
Proof.
  induction a as [|x a IH]; cbn; [reflexivity|].
  now rewrite IH, andb_assoc.
Qed.

Lemma allChars_impl (p q : ascii -> bool) (s : string) :
  (forall c, p c = true -> q c = true) ->
  allChars p s = true -> allChars q s = true.
Proof.
  intros Hpq. induction s as [|x s IH]; cbn; [reflexivity|].
  intros H. apply andb_prop in H as [Hx Hs].
  rewrite (Hpq x Hx), (IH Hs). reflexivity.
Qed.

Lemma prefix_append (a b : string) : String.prefix a (a ++ b) = true.
Proof.
  induction a as [|x a IH]; cbn; [now destruct b|].
  destruct (ascii_dec x x); [assumption | congruence].
Qed.

Lemma prefix_head_differs (c0 c : ascii) (sep s : string) :
  differs c0 c = true -> String.prefix (String c0 sep) (String c s) = false.
Proof.
  unfold differs. intros H. cbn.
  destruct (ascii_dec c0 c) as [E | _]; [|reflexivity].
  subst. now rewrite Ascii.eqb_refl in H.
Qed.

(** *** [split] *)

Lemma split_go_skip (sep x rest : string) :
  split_go sep (String.length x) (x ++ rest) = split_go sep 0 rest.
Proof.
  induction x as [|c x IH]; cbn.
  - destruct rest; reflexivity.
  - exact IH.
Qed.

Lemma split_no_separator (c0 : ascii) (sep a : string) :
  allChars (differs c0) a = true ->
  split (String c0 sep) a = [a].
Proof.
  unfold split. induction a as [|c a IH]; [reflexivity|].
  cbn [allChars]. intros H. apply andb_prop in H as [Hc Ha].
  cbn [split_go]. rewrite (prefix_head_differs c0 c sep a Hc).
  now rewrite (IH Ha).
Qed.

Lemma split_at_separator (c0 : ascii) (sep a rest : string) :
  allChars (differs c0) a = true ->
  split (String c0 sep) (a ++ String c0 sep ++ rest)
  = a :: split (String c0 sep) rest.
Proof.
  unfold split. change (String c0 sep ++ rest) with (String c0 (sep ++ rest)).
  induction a as [|c a IH].
  - intros _. cbn [append split_go].
    change (String c0 (sep ++ rest)) with (String c0 sep ++ rest).
    rewrite prefix_append. cbn [String.length Nat.sub]. rewrite ?Nat.sub_0_r.
    now rewrite split_go_skip.
  - cbn [allChars]. intros H. apply andb_prop in H as [Hc Ha].
    cbn [append split_go].
    rewrite (prefix_head_differs c0 c sep _ Hc).
    now rewrite (IH Ha).
Qed.

Lemma split_go_nonempty (sep s : string) (skip : nat) : split_go sep skip s <> [].
Proof.
  revert skip. induction s as [|c s IH]; intros skip.
  - discriminate.
  - cbn [split_go]. destruct skip; [|apply IH].
    destruct (String.prefix sep (String c s)); [discriminate|].
    destruct (split_go sep 0 s); discriminate.
Qed.

(** *** [includes] *)

Lemma drop_append (n : nat) (a b : string) :
  (n <= String.length a)%nat -> drop n (a ++ b) = drop n a ++ b.
Proof.
  revert a. induction n as [|n IH]; intros a H.
  - now destruct a.
  - destruct a as [|c a]; cbn in H; [lia|]. cbn. apply IH. lia.
Qed.

Lemma contains_append (sub a b : string) : contains sub (a ++ sub ++ b) = true.
Proof.
  induction a as [|c a IH].
  - cbn [append]. destruct (sub ++ b) eqn:E; cbn [contains];
      rewrite <- E, prefix_append; reflexivity.
  - cbn [append contains]. rewrite IH. apply orb_true_r.
Qed.

(** *** Printing and parsing numbers *)

Lemma uint_digits (d : Decimal.uint) :
  allChars isDigit (NilEmpty.string_of_uint d) = true.
Proof. induction d; cbn; try reflexivity; exact IHd. Qed.

Lemma parseDigits_uint (d : Decimal.uint) (acc : Z) :
  parseDigits 10 (NilEmpty.string_of_uint d) (Some acc) = Some (uintValue d acc).
Proof.
  revert acc.
  induction d; intros acc; cbn [NilEmpty.string_of_uint uintValue parseDigits];
    [reflexivity | ..];
    match goal with
    | |- context [digitValue 10 ?c] =>
        let v := eval vm_compute in (digitValue 10 c) in
        change (digitValue 10 c) with v
    end; cbn iota; apply IHd.
Qed.

Lemma parseDigits_uint_start (d : Decimal.uint) :
  d <> Decimal.Nil ->
  parseDigits 10 (NilEmpty.string_of_uint d) None = Some (uintValue d 0).
Proof.
  destruct d; intros H; [congruence | ..];
    cbn [NilEmpty.string_of_uint uintValue parseDigits];
    match goal with
    | |- context [digitValue 10 ?c] =>
        let v := eval vm_compute in (digitValue 10 c) in
        change (digitValue 10 c) with v
    end; cbn iota; apply parseDigits_uint.
Qed.

Lemma uintValue_pos (d : Decimal.uint) (p : positive) :
  uintValue d (Z.pos p) = Z.pos (Pos.of_uint_acc d p).
Proof.
  revert p. induction d; intros p; cbn [uintValue Pos.of_uint_acc];
    [reflexivity | ..];
    match goal with
    | |- uintValue _ ?a = Z.pos (Pos.of_uint_acc _ ?q) =>
        replace a with (Z.pos q) by lia
    end; apply IHd.
Qed.

Lemma uintValue_zero (d : Decimal.uint) :
  uintValue d 0 = Z.of_N (Pos.of_uint d).
Proof.
  induction d; cbn [uintValue Pos.of_uint]; [reflexivity | exact IHd | ..];
    cbn [Z.mul Z.add Z.of_N]; apply uintValue_pos.
Qed.

Lemma toString_nonneg (n : Z) :
  0 <= n -> toString n = NilEmpty.string_of_uint (N.to_uint (Z.to_N n)).
Proof. intros H. destruct n; [reflexivity | reflexivity | lia]. Qed.

Lemma toString_digits (n : Z) : 0 <= n -> allChars isDigit (toString n) = true.
Proof. intros H. rewrite toString_nonneg by assumption. apply uint_digits. Qed.

Lemma toString_length (n : Z) : 0 <= n -> (1 <= String.length (toString n))%nat.
Proof.
  intros H. rewrite toString_nonneg by assumption.
  destruct (Z.to_N n) as [|p]; [cbn; lia|].
  cbn [N.to_uint]. pose proof (DecimalPos.Unsigned.to_uint_nonnil p) as Hn.
  destruct (Pos.to_uint p); [congruence | ..]; cbn; lia.
Qed.

Lemma parseDigits_toString (n : Z) :
  0 <= n -> parseDigits 10 (toString n) None = Some n.
Proof.
  intros H. rewrite toString_nonneg by assumption.
  destruct n as [|p|p]; [reflexivity | | lia].
  cbn [Z.to_N N.to_uint].
  rewrite parseDigits_uint_start by apply DecimalPos.Unsigned.to_uint_nonnil.
  now rewrite uintValue_zero, DecimalPos.Unsigned.of_to.
Qed.

Lemma toString_inj (a b : Z) : toString a = toString b -> a = b.
Proof.
  unfold toString. intros H.
  apply (f_equal NilEmpty.int_of_string) in H.
  rewrite !NilEmpty.isi in H. injection H as H.
  now apply DecimalZ.to_int_inj.
Qed.

Lemma isDigit_differs (c0 c : ascii) :
  isDigit c0 = false -> isDigit c = true -> differs c0 c = true.
Proof.
  unfold differs. intros H0 H. destruct (Ascii.eqb_spec c c0); [|reflexivity].
  subst. congruence.
Qed.

Lemma isDigit_not_whitespace (c : ascii) : isDigit c = true -> isWhiteSpace c = false.
Proof.
  unfold isDigit, isWhiteSpace. generalize (code c) as n. intros n H.
  destruct (Z.leb_spec 48 n); destruct (Z.leb_spec n 57); try discriminate.
  destruct (Z.leb_spec 9 n); destruct (Z.leb_spec n 13);
    destruct (Z.eqb_spec n 32); destruct (Z.eqb_spec n 160); cbn; lia || reflexivity.
Qed.

Lemma option_map_mul_1 (o : option Z) : option_map (Z.mul 1) o = o.
Proof. destruct o as [z|]; [|reflexivity]. cbn [option_map]. f_equal. lia. Qed.

(** On a non-empty string of decimal digits [parseInt] reads the digits in
    base ten. *)
Lemma parseInt_digits (c : ascii) (r : string) :
  allChars isDigit (String c r) = true ->
  parseInt (String c r) = parseDigits 10 (String c r) None.
Proof.
  cbn [allChars]. intros H. apply andb_prop in H as [Hc Hr].
  unfold parseInt. cbn [trimStart]. rewrite (isDigit_not_whitespace c Hc).
  unfold stripSign.
  assert (Em : Ascii.eqb c "-" = false)
    by (destruct (Ascii.eqb_spec c "-"); [subst; discriminate | reflexivity]).
  assert (Ep : Ascii.eqb c "+" = false)
    by (destruct (Ascii.eqb_spec c "+"); [subst; discriminate | reflexivity]).
  rewrite Em, Ep. unfold stripHexPrefix.
  destruct r as [|c1 r]; [apply option_map_mul_1|].
  cbn [allChars] in Hr. apply andb_prop in Hr as [Hc1 _].
  assert (Ex : Ascii.eqb c1 "x" = false)
    by (destruct (Ascii.eqb_spec c1 "x"); [subst; discriminate | reflexivity]).
  assert (EX : Ascii.eqb c1 "X" = false)
    by (destruct (Ascii.eqb_spec c1 "X"); [subst; discriminate | reflexivity]).
  rewrite Ex, EX, andb_false_r. apply option_map_mul_1.
Qed.

Lemma parseInt_toString (n : Z) : 0 <= n -> parseInt (toString n) = Some n.
Proof.
  intros H. pose proof (toString_digits n H) as Hd.
  pose proof (toString_length n H) as Hl.
  pose proof (parseDigits_toString n H) as Hp.
  destruct (toString n) as [|c r]; [cbn in Hl; lia|].
  now rewrite parseInt_digits.
Qed.

(** [padStart(2, "0")] keeps a string of two or more characters and puts one
    zero in front of a single character. *)
Lemma padStart2_cases (s : string) :
  (1 <= String.length s)%nat ->
  padStart 2 "0" s = s \/ padStart 2 "0" s = String "0" s.
Proof.
  intros H. destruct s as [|c1 [|c2 r]]; [cbn in H; lia | right | left]; reflexivity.
Qed.

Lemma padStart2_digits (n : Z) :
  0 <= n -> allChars isDigit (padStart 2 "0" (toString n)) = true.
Proof.
  intros H. pose proof (toString_digits n H) as Hd.
  destruct (padStart2_cases (toString n) (toString_length n H)) as [E | E];
    rewrite E; [assumption|]. cbn [allChars]. now rewrite Hd.
Qed.

Lemma padStart2_length (n : Z) :
  0 <= n -> (2 <= String.length (padStart 2 "0" (toString n)))%nat.
Proof.
  intros H. pose proof (toString_length n H) as Hl. unfold padStart.
  rewrite length_append.
  destruct (toString n) as [|c1 [|c2 r]]; cbn in *; lia.
Qed.

Lemma parseInt_padStart2 (n : Z) :
  0 <= n -> parseInt (padStart 2 "0" (toString n)) = Some n.
Proof.
  intros H.
  destruct (padStart2_cases (toString n) (toString_length n H)) as [E | E];
    rewrite E; [now apply parseInt_toString|].
  pose proof (toString_digits n H) as Hd.
  pose proof (toString_length n H) as Hl.
  pose proof (parseDigits_toString n H) as Hp.
  rewrite parseInt_digits by (cbn [allChars]; now rewrite Hd).
  destruct (toString n) as [|c r]; [cbn in Hl; lia|].
  cbn [allChars] in Hd. apply andb_prop in Hd as [Hc _].
  cbn [parseDigits] in *.
  change (digitValue 10 "0") with (Some 0). cbn iota.
  destruct (digitValue 10 c) as [v|]; [exact Hp | discriminate Hp].
Qed.

(** *** Week keys and event records *)

Lemma formatWeekKey_split (year week : Z) :
  0 <= year -> 0 <= week ->
  split "-W" (formatWeekKey year week)
  = [toString year; padStart 2 "0" (toString week)].
Proof.
  intros Hy Hw. unfold formatWeekKey.
  rewrite split_at_separator.
  - f_equal. apply split_no_separator.
    apply allChars_impl with (p := isDigit); [|now apply padStart2_digits].
    intros c Hc; apply isDigit_differs; [reflexivity | exact Hc].
  - apply allChars_impl with (p := isDigit); [|now apply toString_digits].
    intros c Hc; apply isDigit_differs; [reflexivity | exact Hc].
Qed.

Lemma formatWeekKey_parse (year week : Z) :
  0 <= year -> 0 <= week ->
  parseIntAt (split "-W" (formatWeekKey year week)) 0 = Some year
  /\ parseIntAt (split "-W" (formatWeekKey year week)) 1 = Some week.
Proof.
  intros Hy Hw. rewrite formatWeekKey_split by assumption.
  unfold parseIntAt. cbn [nth_error].
  split; [now apply parseInt_toString | now apply parseInt_padStart2].
Qed.

Lemma formatWeekKey_chars (year week : Z) :
  0 <= year -> 0 <= week -> allChars keyChar (formatWeekKey year week) = true.
Proof.
  intros Hy Hw. unfold formatWeekKey. rewrite !allChars_append.
  rewrite (allChars_impl isDigit keyChar (toString year));
    [| unfold keyChar; now intros c -> | now apply toString_digits].
  rewrite (allChars_impl isDigit keyChar (padStart 2 "0" (toString week)));
    [| unfold keyChar; now intros c -> | now apply padStart2_digits].
  reflexivity.
Qed.

Lemma keyChar_not_colon (c : ascii) : keyChar c = true -> differs ":" c = true.
Proof.
  unfold differs. intros H. destruct (Ascii.eqb_spec c ":"); [|reflexivity].
  subst. discriminate H.
Qed.

Lemma formatWeekKey_length (year week : Z) :
  0 <= year -> 0 <= week -> (5 <= String.length (formatWeekKey year week))%nat.
Proof.
  intros Hy Hw. unfold formatWeekKey. rewrite !length_append.
  pose proof (toString_length year Hy). pose proof (padStart2_length week Hw).
  cbn [String.length]. lia.
Qed.

Lemma formatWeekKey_has_W (year week : Z) :
  includes "W" 0 (formatWeekKey year week) = true.
Proof.
  unfold includes, formatWeekKey.
  replace (drop 0 (toString year ++ "-W" ++ padStart 2 "0" (toString week)))
    with ((toString year ++ "-") ++ "W" ++ padStart 2 "0" (toString week)).
  - apply contains_append.
  - rewrite append_assoc. now destruct (toString year).
Qed.

End Strings.

(* ------------------------------------------------------------------ *)
(** ** Range events *)
(* ------------------------------------------------------------------ *)

Section RangeEvents.

Local Open Scope string_scope.

Variables startYear startWeek endYear endWeek : Z.
Variable description : string.
Hypothesis HstartYear : (0 <= startYear)%Z.
Hypothesis HstartWeek : (0 <= startWeek)%Z.
Hypothesis HendYear : (0 <= endYear)%Z.
Hypothesis HendWeek : (0 <= endWeek)%Z.

Let startKey := formatWeekKey startYear startWeek.
Let endKey := formatWeekKey endYear endWeek.
Let record := rangeEventData startKey endKey description.

Lemma record_split :
  split ":" record = startKey :: endKey :: split ":" description.
Proof.
  unfold record, rangeEventData.
  rewrite (split_at_separator ":" "" startKey).
  - f_equal. apply (split_at_separator ":" "" endKey).
    apply allChars_impl with (p := keyChar); [apply keyChar_not_colon|].
    now apply formatWeekKey_chars.
  - apply allChars_impl with (p := keyChar); [apply keyChar_not_colon|].
    now apply formatWeekKey_chars.
Qed.

Lemma record_second_colon : includes ":" 10 record = true.
Proof.
  unfold includes, record, rangeEventData.
  rewrite <- (append_assoc startKey ":" (endKey ++ ":" ++ description)).
  rewrite <- (append_assoc (startKey ++ ":") endKey (":" ++ description)).
  rewrite drop_append.
  - apply contains_append.
  - rewrite !length_append. unfold startKey, endKey.
    pose proof (formatWeekKey_length startYear startWeek HstartYear HstartWeek).
    pose proof (formatWeekKey_length endYear endWeek HendYear HendWeek).
    cbn [String.length]. lia.
Qed.

Lemma record_not_single (weekKey : string) : isSingleEventFor weekKey record = false.
Proof. unfold isSingleEventFor. rewrite record_second_colon. apply andb_false_r. Qed.

Lemma record_is_range : isRangeEvent record = true.
Proof.
  unfold isRangeEvent. rewrite record_split. cbn [nth_error List.length].
  unfold startKey, endKey. rewrite !formatWeekKey_has_W.
  pose proof (split_go_nonempty ":" description 0) as Hn.
  change (split_go ":" 0 description) with (split ":" description) in Hn.
  destruct (split ":" description); [congruence | reflexivity].
Qed.

Lemma formatWeekKey_truthy (year week : Z) :
  (0 <= year)%Z -> (0 <= week)%Z -> truthy (Some (formatWeekKey year week)) = true.
Proof.
  intros Hy Hw. pose proof (formatWeekKey_length year week Hy Hw) as H.
  unfold truthy. destruct (formatWeekKey year week); [cbn in H; lia | reflexivity].
Qed.

Lemma formatWeekKey_orElse (year week : Z) :
  (0 <= year)%Z -> (0 <= week)%Z ->
  orElse (Some (formatWeekKey year week)) "" = formatWeekKey year week.
Proof.
  intros Hy Hw. pose proof (formatWeekKey_length year week Hy Hw) as H.
  unfold orElse. destruct (formatWeekKey year week); [cbn in H; lia | reflexivity].
Qed.

(** Probing a collection that holds just this record comes down to the
    interval test on the parsed years and weeks. *)
Lemma applyEventStyle_range_record (cellYear cellWeek : Z)
    (defaultColor defaultDesc : string) (cell : Cell) :
  (0 <= cellYear)%Z -> (0 <= cellWeek)%Z ->
  fst (applyEventStyle (formatWeekKey cellYear cellWeek) [record]
         defaultColor defaultDesc cell)
  = isInRange (Some cellYear) (Some cellWeek) (Some startYear) (Some startWeek)
      (Some endYear) (Some endWeek).
Proof.
  intros Hcy Hcw. unfold applyEventStyle.
  cbn [find filter]. rewrite record_not_single, record_is_range.
  cbn [truthy rangeLoop]. rewrite record_split. cbn [nth_error].
  unfold startKey, endKey.
  rewrite !formatWeekKey_truthy, !formatWeekKey_orElse by assumption.
  cbn [negb orb].
  destruct (formatWeekKey_parse startYear startWeek HstartYear HstartWeek) as [-> ->].
  destruct (formatWeekKey_parse endYear endWeek HendYear HendWeek) as [-> ->].
  destruct (formatWeekKey_parse cellYear cellWeek Hcy Hcw) as [-> ->].
  destruct (isInRange _ _ _ _ _ _); reflexivity.
Qed.

End RangeEvents.

Lemma isInRange_spec (cellYear cellWeek startYear startWeek endYear endWeek : Z) :
  isInRange (Some cellYear) (Some cellWeek) (Some startYear) (Some startWeek)
    (Some endYear) (Some endWeek) = true
  <-> (cellYear > startYear \/ (cellYear = startYear /\ cellWeek >= startWeek))
      /\ (cellYear < endYear \/ (cellYear = endYear /\ cellWeek <= endWeek)).
Proof.
  unfold isInRange, num_gt, num_ge, num_lt, num_le, num_eq.
  rewrite andb_true_iff, !orb_true_iff, !andb_true_iff.
  rewrite !Z.ltb_lt, !Z.leb_le, !Z.eqb_eq. lia.
Qed.

(** C7: a range record whose two ends are the week keys of
    ([startYear], [startWeek]) and ([endYear], [endWeek]) matches the cell
    with the week key of ([cellYear], [cellWeek]) exactly when the cell's
    pair lies in the inclusive lexicographic interval between the two ends.
    The record "2024-W01:2024-W03:Trip" matches the key 2024-W02 and does
    not match 2024-W04. *)
Theorem range_event_matches_interval
    (startYear startWeek endYear endWeek cellYear cellWeek : Z)
    (description defaultColor defaultDesc : string) (cell : Cell)
    (HstartYear : 0 <= startYear) (HstartWeek : 0 <= startWeek)
    (HendYear : 0 <= endYear) (HendWeek : 0 <= endWeek)
    (HcellYear : 0 <= cellYear) (HcellWeek : 0 <= cellWeek) :
  (fst (applyEventStyle (formatWeekKey cellYear cellWeek)
          [rangeEventData (formatWeekKey startYear startWeek)
             (formatWeekKey endYear endWeek) description]
          defaultColor defaultDesc cell) = true
   <-> (cellYear > startYear \/ (cellYear = startYear /\ cellWeek >= startWeek))
       /\ (cellYear < endYear \/ (cellYear = endYear /\ cellWeek <= endWeek)))
  /\ fst (applyEventStyle "2024-W02"%string ["2024-W01:2024-W03:Trip"%string]
            defaultColor defaultDesc cell) = true
  /\ fst (applyEventStyle "2024-W04"%string ["2024-W01:2024-W03:Trip"%string]
            defaultColor defaultDesc cell) = false.
Proof.
  split.
  - rewrite applyEventStyle_range_record by assumption. apply isInRange_spec.
  - split.
    + change (fst (applyEventStyle (formatWeekKey 2024 2)
                [rangeEventData (formatWeekKey 2024 1) (formatWeekKey 2024 3) "Trip"%string]
                defaultColor defaultDesc cell) = true).
      rewrite applyEventStyle_range_record by lia. reflexivity.
    + change (fst (applyEventStyle (formatWeekKey 2024 4)
                [rangeEventData (formatWeekKey 2024 1) (formatWeekKey 2024 3) "Trip"%string]
                defaultColor defaultDesc cell) = false).
      rewrite applyEventStyle_range_record by lia. reflexivity.
Qed.

Lemma range_event_matches_interval_witness :
  fst (applyEventStyle "2024-W02"%string ["2024-W01:2024-W03:Trip"%string]
         "#2196F3"%string "Travel"%string futureCell) = true.
Proof.
  pose proof (range_event_matches_interval 2024 1 2024 3 2024 2
                "Trip"%string "#2196F3"%string "Travel"%string futureCell
                ltac:(lia) ltac:(lia) ltac:(lia) ltac:(lia) ltac:(lia) ltac:(lia))
    as [H _].
  apply H. lia.
Defined.

(* ------------------------------------------------------------------ *)
(** ** Month markers *)
(* ------------------------------------------------------------------ *)

Section SortMarkers.

Lemma insertMarker_perm (m : MonthMarker) (l : list MonthMarker) :
  Permutation (insertMarker m l) (m :: l).
Proof.
  induction l as [|h t IH]; cbn [insertMarker]; [reflexivity|].
  destruct (weekIndex m <? weekIndex h); [reflexivity|].
  rewrite IH. apply perm_swap.
Qed.

Lemma insertMarker_sorted (m : MonthMarker) (l : list MonthMarker) :
  StronglySorted weekIndex_le l -> StronglySorted weekIndex_le (insertMarker m l).
Proof.
  induction l as [|h t IH]; cbn [insertMarker]; intros Hs.
  - constructor; constructor.
  - apply StronglySorted_inv in Hs as [Ht Hh].
    destruct (Z.ltb_spec (weekIndex m) (weekIndex h)) as [Hlt | Hge].
    + constructor; [constructor; assumption|].
      constructor; [unfold weekIndex_le; lia|].
      eapply Forall_impl; [|exact Hh]. unfold weekIndex_le. intros a Ha. lia.
    + constructor; [now apply IH|].
      apply (Permutation_Forall (Permutation_sym (insertMarker_perm m t))).
      constructor; [exact Hge | exact Hh].
Qed.

Lemma sortMarkers_from (l acc : list MonthMarker) :
  StronglySorted weekIndex_le acc ->
  StronglySorted weekIndex_le (fold_left (fun a m => insertMarker m a) l acc)
  /\ Permutation (fold_left (fun a m => insertMarker m a) l acc) (acc ++ l).
Proof.
  revert acc. induction l as [|m l IH]; intros acc Hs; cbn [fold_left].
  - rewrite app_nil_r. split; [assumption | reflexivity].
  - destruct (IH (insertMarker m acc) (insertMarker_sorted m acc Hs)) as [H1 H2].
    split; [assumption|]. rewrite H2, insertMarker_perm.
    change (m :: acc) with ([m] ++ acc). rewrite <- app_assoc.
    apply Permutation_app_swap_app.
Qed.

Lemma sortMarkers_sorted (l : list MonthMarker) :
  StronglySorted weekIndex_le (sortMarkers l).
Proof. apply sortMarkers_from. constructor. Qed.

Lemma sortMarkers_perm (l : list MonthMarker) : Permutation (sortMarkers l) l.
Proof. apply (sortMarkers_from l []). constructor. Qed.

End SortMarkers.

Section MonthLabels.

Lemma monthLabel_inj (m1 y1 m2 y2 : Z) :
  0 <= m1 <= 11 -> 0 <= m2 <= 11 ->
  monthLabel m1 y1 = monthLabel m2 y2 -> m1 = m2 /\ y1 = y2.
Proof.
  intros H1 H2 E.
  assert (C1 : m1 = 0 \/ m1 = 1 \/ m1 = 2 \/ m1 = 3 \/ m1 = 4 \/ m1 = 5 \/ m1 = 6
               \/ m1 = 7 \/ m1 = 8 \/ m1 = 9 \/ m1 = 10 \/ m1 = 11) by lia.
  assert (C2 : m2 = 0 \/ m2 = 1 \/ m2 = 2 \/ m2 = 3 \/ m2 = 4 \/ m2 = 5 \/ m2 = 6
               \/ m2 = 7 \/ m2 = 8 \/ m2 = 9 \/ m2 = 10 \/ m2 = 11) by lia.
  clear H1 H2.
  repeat destruct C1 as [C1 | C1]; subst m1;
    repeat destruct C2 as [C2 | C2]; subst m2;
    unfold monthLabel in E; cbn in E;
    first [ discriminate E
          | injection E as E; apply toString_inj in E; split; [reflexivity | exact E] ].
Qed.

Lemma monthStart_le (leap dwy : Z) :
  0 <= leap -> 0 <= dwy -> monthStart leap (monthOfYearDay leap dwy) <= dwy.
Proof.
  intros Hl Hd. unfold monthOfYearDay.
  repeat match goal with |- context [?a <? ?b] => destruct (Z.ltb_spec a b) end;
    cbn [monthStart]; lia.
Qed.

Lemma DateFromTime_pos (t : Date) : 1 <= DateFromTime t.
Proof.
  unfold DateFromTime, MonthFromTime.
  pose proof (DayWithinYear_range t) as [H _].
  destruct (InLeapYear_spec t) as [_ Hl].
  pose proof (monthStart_le (InLeapYear t) (DayWithinYear t) ltac:(lia) H). lia.
Qed.

Lemma monthId_mono (t1 t2 : Date) : Day t1 <= Day t2 -> monthId t1 <= monthId t2.
Proof.
  intros H. unfold monthId, getFullYear, getMonth, MonthFromTime.
  pose proof (YearFromDay_mono _ _ H) as Hy. fold (YearFromTime t1) (YearFromTime t2) in Hy.
  pose proof (monthOfYearDay_range (InLeapYear t1) (DayWithinYear t1)).
  pose proof (monthOfYearDay_range (InLeapYear t2) (DayWithinYear t2)).
  destruct (Z.eq_dec (YearFromTime t1) (YearFromTime t2)) as [E | N]; [|lia].
  assert (El : InLeapYear t1 = InLeapYear t2) by (unfold InLeapYear; now rewrite E).
  rewrite El, E. apply Z.add_le_mono_l. apply monthOfYearDay_mono.
  unfold DayWithinYear. rewrite E. lia.
Qed.

End MonthLabels.

Section MonthMarkersLoop.

Variable frequency : string.
Variables birthdayDate endDate : Date.
Variables birthMonth birthYear : Z.

Let day (k : Z) : Date := birthdayDate + k * msPerDay.

(** Day [k] is visited by the loop and its month passes the filter. *)
Let shown (k : Z) : Prop :=
  0 <= k /\ day k < endDate /\ shouldShowMonth frequency (getMonth (day k)) = true.

Let Inv (currentDate : Date) (lastShownMonth lastShownYear : Z)
    (monthMarkers : list MonthMarker) : Prop :=
  (exists k0, 0 <= k0 /\ currentDate = day k0)
  /\ (forall mk, In mk monthMarkers ->
        exists k, shown k /\ markerForDay birthdayDate k mk
                  /\ monthId (day k) <= 12 * lastShownYear + lastShownMonth)
  /\ NoDup (map fullLabel monthMarkers)
  /\ ((lastShownMonth = -1 /\ monthMarkers = [])
      \/ (0 <= lastShownMonth <= 11
          /\ 12 * lastShownYear + lastShownMonth <= monthId currentDate
          /\ exists mk k, In mk monthMarkers /\ markerForDay birthdayDate k mk
                          /\ getMonth (day k) = lastShownMonth
                          /\ getFullYear (day k) = lastShownYear)).

Let Post (currentDate : Date) (result : list MonthMarker) : Prop :=
  (forall mk, In mk result -> exists k, shown k /\ markerForDay birthdayDate k mk)
  /\ NoDup (map fullLabel result)
  /\ (forall j, 0 <= j -> currentDate + j * msPerDay < endDate ->
        shouldShowMonth frequency (getMonth (currentDate + j * msPerDay)) = true ->
        exists mk k, In mk result /\ markerForDay birthdayDate k mk
                     /\ getMonth (day k) = getMonth (currentDate + j * msPerDay)
                     /\ getFullYear (day k) = getFullYear (currentDate + j * msPerDay)).

Lemma monthMarkersLoop_spec (fuel : nat) :
  forall currentDate lastShownMonth lastShownYear monthMarkers,
    endDate <= currentDate + Z.of_nat fuel * msPerDay ->
    Inv currentDate lastShownMonth lastShownYear monthMarkers ->
    let result :=
      monthMarkersLoop fuel frequency birthdayDate endDate birthMonth birthYear
        currentDate lastShownMonth lastShownYear monthMarkers in
    Post currentDate result /\ incl monthMarkers result.
Proof.
  assert (Hms : 0 < msPerDay) by reflexivity.
  assert (Hstop : forall cur lm ly acc,
             endDate <= cur -> Inv cur lm ly acc -> Post cur acc /\ incl acc acc).
  { intros cur lm ly acc Hend (_ & HI1 & HI2 & _).
    split; [|apply incl_refl]. split; [|split; [exact HI2|]].
    - intros mk Hin. destruct (HI1 mk Hin) as (k & Hk & Hm & _). now exists k.
    - intros j Hj Hlt. nia. }
  induction fuel as [|fuel IH]; intros cur lm ly acc Hfuel HInv.
  - cbn [monthMarkersLoop]. apply (Hstop cur lm ly); [cbn in Hfuel; lia | exact HInv].
  - cbn [monthMarkersLoop].
    destruct (Z.ltb_spec cur endDate) as [Hlt | Hge];
      [|apply (Hstop cur lm ly); assumption].
    rewrite setDate_add, Z.mul_1_l.
    assert (Hfuel' : endDate <= cur + msPerDay + Z.of_nat fuel * msPerDay) by lia.
    destruct HInv as ((k0 & Hk0 & Hcur) & HI1 & HI2 & HI3).
    assert (Hnext : exists k1, 0 <= k1 /\ cur + msPerDay = day k1)
      by (exists (k0 + 1); split; [lia | unfold day in *; lia]).
    assert (Hmono : monthId cur <= monthId (cur + msPerDay)).
    { apply monthId_mono. replace (cur + msPerDay) with (cur + 1 * msPerDay) by lia.
      rewrite Day_shift. lia. }
    pose proof (MonthFromTime_range cur) as Hm. fold (getMonth cur) in Hm.
    (* what a later day [cur + j * msPerDay] needs from the rest of the loop *)
    assert (Hlater : forall result,
               Post (cur + msPerDay) result ->
               forall j, 1 <= j -> cur + j * msPerDay < endDate ->
                 shouldShowMonth frequency (getMonth (cur + j * msPerDay)) = true ->
                 exists mk k, In mk result /\ markerForDay birthdayDate k mk
                   /\ getMonth (day k) = getMonth (cur + j * msPerDay)
                   /\ getFullYear (day k) = getFullYear (cur + j * msPerDay)).
    { intros result (_ & _ & HP3) j Hj Hjlt Hshow.
      replace (cur + j * msPerDay) with (cur + msPerDay + (j - 1) * msPerDay) in * by lia.
      apply HP3; [lia | assumption | assumption]. }
    destruct ((negb (getMonth cur =? lm) || negb (getFullYear cur =? ly))
              && shouldShowMonth frequency (getMonth cur)) eqn:Hcond.
    + (* a marker is pushed *)
      apply andb_prop in Hcond as [Hnew Hshow].
      set (marker := {| weekIndex := _ |}).
      assert (Hmk : markerForDay birthdayDate k0 marker).
      { unfold markerForDay. fold (day k0). rewrite <- Hcur. subst marker.
        cbn [weekIndex label isFirstOfYear fullLabel]. repeat split.
        f_equal. rewrite Hcur. unfold day.
        change (1000 * 60 * 60 * 24) with msPerDay.
        replace (birthdayDate + k0 * msPerDay - birthdayDate) with (k0 * msPerDay) by lia.
        now apply Z.div_mul. }
      assert (Hk0shown : shown k0) by (unfold shown; rewrite <- Hcur; auto).
      assert (Hstrict : acc <> [] -> 12 * ly + lm < monthId cur).
      { intros Hne. destruct HI3 as [[_ Hnil] | (Hlm & Hle & _)]; [congruence|].
        unfold monthId in *.
        destruct (Z.eqb_spec (getMonth cur) lm); destruct (Z.eqb_spec (getFullYear cur) ly);
          cbn in Hnew; try discriminate; lia. }
      assert (HInv' : Inv (cur + msPerDay) (getMonth cur) (getFullYear cur)
                        (acc ++ [marker])).
      { split; [exact Hnext|]. split; [|split].
        - intros mk Hin. apply in_app_or in Hin as [Hin | [<- | []]].
          + destruct (HI1 mk Hin) as (k & Hk & Hfor & Hle). exists k.
            split; [assumption|]. split; [assumption|].
            assert (acc <> []) by (intros ->; exact Hin).
            fold (monthId cur). specialize (Hstrict H). lia.
          + exists k0. split; [assumption|]. split; [assumption|].
            rewrite <- Hcur. unfold monthId. lia.
        - rewrite map_app. cbn [map].
          apply NoDup_app; [exact HI2 | repeat constructor; intros [] |].
          intros l Hl [<- | []].
          apply in_map_iff in Hl as (mk & El & Hin).
          destruct (HI1 mk Hin) as (k & Hk & Hfor & Hle).
          destruct Hfor as (_ & _ & _ & Hfl). rewrite Hfl in El.
          destruct Hmk as (_ & _ & _ & Hfl0). rewrite Hfl0 in El.
          change (birthdayDate + k0 * msPerDay) with (day k0) in El.
          change (birthdayDate + k * msPerDay) with (day k) in El.
          rewrite <- Hcur in El.
          apply monthLabel_inj in El as [E1 E2];
            [| apply MonthFromTime_range | exact Hm].
          assert (acc <> []) by (intros ->; exact Hin).
          specialize (Hstrict H). unfold monthId in *. lia.
        - right. split; [exact Hm|]. split; [exact Hmono|].
          exists marker, k0. split; [apply in_or_app; right; now left|].
          split; [exact Hmk|]. now rewrite <- Hcur. }
      destruct (IH _ _ _ _ Hfuel' HInv') as [HP Hincl].
      split; [|intros x Hx; apply Hincl, in_or_app; now left].
      destruct HP as (HP1 & HP2 & HP3). split; [exact HP1|]. split; [exact HP2|].
      intros j Hj Hjlt Hjshow.
      destruct (Z.eq_dec j 0) as [-> | Hj0].
      * exists marker, k0. split; [apply Hincl, in_or_app; right; now left|].
        split; [exact Hmk|]. rewrite Z.mul_0_l, Z.add_0_r, <- Hcur. now split.
      * apply (Hlater _ (conj HP1 (conj HP2 HP3))); [lia | assumption | assumption].
    + (* nothing is pushed *)
      assert (HInv' : Inv (cur + msPerDay) lm ly acc).
      { split; [exact Hnext|]. split; [exact HI1|]. split; [exact HI2|].
        destruct HI3 as [H | (Hlm & Hle & Hex)]; [now left | right].
        split; [exact Hlm|]. split; [lia | exact Hex]. }
      destruct (IH _ _ _ _ Hfuel' HInv') as [HP Hincl].
      split; [|exact Hincl].
      destruct HP as (HP1 & HP2 & HP3). split; [exact HP1|]. split; [exact HP2|].
      intros j Hj Hjlt Hjshow.
      destruct (Z.eq_dec j 0) as [-> | Hj0].
      * rewrite Z.mul_0_l, Z.add_0_r in *. rewrite Hjshow, andb_true_r in Hcond.
        apply orb_false_elim in Hcond as [Hc1 Hc2].
        apply negb_false_iff, Z.eqb_eq in Hc1. apply negb_false_iff, Z.eqb_eq in Hc2.
        destruct HI3 as [[Hlm _] | (_ & _ & mk & k & Hin & Hfor & Hkm & Hky)]; [lia|].
        exists mk, k. split; [now apply Hincl|]. split; [exact Hfor|].
        now rewrite Hkm, Hky.
      * apply (Hlater _ (conj HP1 (conj HP2 HP3))); [lia | assumption | assumption].
Qed.

End MonthMarkersLoop.

Section MonthMarkers.

Lemma ceilDiv_fuel (a : Z) :
  a <= Z.of_nat (Z.to_nat (ceilDiv a msPerDay)) * msPerDay.
Proof.
  unfold ceilDiv, msPerDay.
  assert (H : a <= - (- a / 86400000) * 86400000) by zdiv.
  generalize dependent (- (- a / 86400000)). intros q H. lia.
Qed.

Lemma monthStart_nonneg (leap m : Z) :
  0 <= leap -> 0 <= m <= 11 -> 0 <= monthStart leap m.
Proof.
  intros Hl Hm.
  assert (C : m = 0 \/ m = 1 \/ m = 2 \/ m = 3 \/ m = 4 \/ m = 5 \/ m = 6
              \/ m = 7 \/ m = 8 \/ m = 9 \/ m = 10 \/ m = 11) by lia.
  repeat destruct C as [C | C]; subst m; cbn [monthStart]; lia.
Qed.

(** January 1st of a year strictly between the birth year and the last
    displayed year, at the time of day of the birthday, is one of the days
    the loop visits. *)
Lemma january_first_visited (birthdayDate : Date) (totalYears y : Z) :
  getFullYear birthdayDate < y < getFullYear birthdayDate + totalYears ->
  exists k, 0 <= k
    /\ birthdayDate + k * msPerDay
       < setFullYear birthdayDate (getFullYear birthdayDate + totalYears)
    /\ getMonth (birthdayDate + k * msPerDay) = 0
    /\ getFullYear (birthdayDate + k * msPerDay) = y.
Proof.
  intros [Hlo Hhi]. unfold getFullYear in *.
  exists (DayFromYear y - Day birthdayDate).
  pose proof (YearFromDay_spec (Day birthdayDate)) as Hb.
  fold (YearFromTime birthdayDate) in Hb.
  pose proof (DayFromYear_le (YearFromTime birthdayDate + 1) y ltac:(lia)) as H1.
  pose proof (DayFromYear_lt y (YearFromTime birthdayDate + totalYears) Hhi) as H2.
  assert (HD : Day (birthdayDate + (DayFromYear y - Day birthdayDate) * msPerDay)
               = DayFromYear y) by (rewrite Day_shift; lia).
  assert (HY : YearFromTime
                 (birthdayDate + (DayFromYear y - Day birthdayDate) * msPerDay) = y).
  { unfold YearFromTime. rewrite HD. apply YearFromDay_unique.
    rewrite DayFromYear_succ. pose proof (DaysInYear_range y). lia. }
  split; [lia|]. split; [|split; [|exact HY]].
  - unfold setFullYear, MakeDay, MakeDate.
    pose proof (MonthFromTime_range birthdayDate) as Hm.
    replace (MonthFromTime birthdayDate / 12) with 0 by zdiv.
    replace (MonthFromTime birthdayDate mod 12) with (MonthFromTime birthdayDate) by zdiv.
    rewrite Z.add_0_r.
    pose proof (DateFromTime_pos birthdayDate) as Hd.
    set (leap := if DaysInYear (YearFromTime birthdayDate + totalYears) =? 366
                 then 1 else 0).
    assert (Hl : 0 <= leap) by (subst leap; destruct (_ =? _); lia).
    pose proof (monthStart_nonneg leap (MonthFromTime birthdayDate) Hl Hm) as Hs.
    set (ms := monthStart leap (MonthFromTime birthdayDate)) in *.
    set (dt := DateFromTime birthdayDate) in *.
    set (dy := DayFromYear y) in *.
    set (dn := DayFromYear (YearFromTime birthdayDate + totalYears)) in *.
    unfold Day, TimeWithinDay, msPerDay in *. zdiv.
  - unfold getMonth, MonthFromTime, DayWithinYear. rewrite HD, HY, Z.sub_diag.
    reflexivity.
Qed.

(** C9: whatever the frequency setting, the markers [calculateMonthMarkers]
    returns are sorted by ascending week index; they hold a January marker
    for every January day of the displayed range, hence for every year
    strictly between the birth year and the last displayed year; and for
    every displayed day whose month passes the frequency filter exactly one
    marker carries the label of that month and year.  Every marker comes
    from such a day, at the week index of the first displayed day of its
    month. *)
Theorem calculateMonthMarkers_spec (birthdayDate : Date) (totalYears : Z)
    (frequency : string) (Hyears : 1 <= totalYears) :
  let markers := calculateMonthMarkers birthdayDate totalYears frequency in
  let endDate := setFullYear birthdayDate (getFullYear birthdayDate + totalYears) in
  let day := fun k => birthdayDate + k * msPerDay in
  StronglySorted weekIndex_le markers
  /\ (forall k, 0 <= k -> day k < endDate -> getMonth (day k) = 0 ->
        exists mk, In mk markers /\ label mk = "Jan"%string
                   /\ isFirstOfYear mk = true
                   /\ fullLabel mk = ("Jan " ++ toString (getFullYear (day k)))%string)
  /\ (forall y, getFullYear birthdayDate < y < getFullYear birthdayDate + totalYears ->
        exists mk, In mk markers /\ label mk = "Jan"%string
                   /\ isFirstOfYear mk = true
                   /\ fullLabel mk = ("Jan " ++ toString y)%string)
  /\ (forall k, 0 <= k -> day k < endDate ->
        shouldShowMonth frequency (getMonth (day k)) = true ->
        count_occ string_dec (map fullLabel markers)
          (monthLabel (getMonth (day k)) (getFullYear (day k))) = 1%nat)
  /\ (forall mk, In mk markers ->
        exists k, 0 <= k /\ day k < endDate
                  /\ shouldShowMonth frequency (getMonth (day k)) = true
                  /\ markerForDay birthdayDate k mk).
Proof.
  intros markers endDate day.
  set (fuel := Z.to_nat (ceilDiv (endDate - birthdayDate) msPerDay)).
  set (raw := monthMarkersLoop fuel frequency birthdayDate endDate
                (getMonth birthdayDate) (getFullYear birthdayDate)
                birthdayDate (-1) (-1) []).
  assert (Hm : markers = sortMarkers raw) by reflexivity.
  assert (Hvisit : forall y,
             getFullYear birthdayDate < y < getFullYear birthdayDate + totalYears ->
             exists k, 0 <= k /\ day k < endDate /\ getMonth (day k) = 0
                       /\ getFullYear (day k) = y)
    by (intros y Hy; exact (january_first_visited birthdayDate totalYears y Hy)).
  destruct (monthMarkersLoop_spec frequency birthdayDate endDate
              (getMonth birthdayDate) (getFullYear birthdayDate) fuel
              birthdayDate (-1) (-1) []) as [(HP1 & HP2 & HP3) _].
  { subst fuel. pose proof (ceilDiv_fuel (endDate - birthdayDate)). lia. }
  { split; [exists 0; split; [lia | unfold Date in *; lia]|].
    split; [intros mk []|]. split; [constructor | now left]. }
  fold raw in HP1, HP2, HP3.
  pose proof (sortMarkers_perm raw) as Hperm. rewrite <- Hm in Hperm.
  pose proof (sortMarkers_sorted raw) as Hsorted. rewrite <- Hm in Hsorted.
  clearbody raw markers endDate. clear Hm fuel.
  change (forall j, 0 <= j -> day j < endDate ->
            shouldShowMonth frequency (getMonth (day j)) = true ->
            exists mk k, In mk raw /\ markerForDay birthdayDate k mk
              /\ getMonth (day k) = getMonth (day j)
              /\ getFullYear (day k) = getFullYear (day j)) in HP3.
  change (forall mk, In mk raw ->
            exists k, (0 <= k /\ day k < endDate
                       /\ shouldShowMonth frequency (getMonth (day k)) = true)
                      /\ markerForDay birthdayDate k mk) in HP1.
  assert (Hshown : forall k, 0 <= k -> day k < endDate ->
             shouldShowMonth frequency (getMonth (day k)) = true ->
             exists mk, In mk markers
               /\ label mk = monthName (getMonth (day k))
               /\ isFirstOfYear mk = (getMonth (day k) =? 0)
               /\ fullLabel mk = monthLabel (getMonth (day k)) (getFullYear (day k))).
  { intros k Hk Hlt Hshow.
    destruct (HP3 k Hk Hlt Hshow) as (mk & k' & Hin & (_ & Hl & Hf & Hfl) & Em & Ey).
    exists mk. split; [exact (Permutation_in _ (Permutation_sym Hperm) Hin)|].
    fold (day k') in Hl, Hf, Hfl. rewrite Em in Hl, Hf, Hfl. rewrite Ey in Hfl.
    split; [exact Hl|]. split; [exact Hf | exact Hfl]. }
  assert (Hjan : forall k, 0 <= k -> day k < endDate -> getMonth (day k) = 0 ->
             exists mk, In mk markers /\ label mk = "Jan"%string
                        /\ isFirstOfYear mk = true
                        /\ fullLabel mk
                           = ("Jan " ++ toString (getFullYear (day k)))%string).
  { intros k Hk Hlt Hjan.
    destruct (Hshown k Hk Hlt) as (mk & Hin & Hl & Hf & Hfl).
    - rewrite Hjan. reflexivity.
    - rewrite Hjan in Hl, Hf, Hfl. exists mk.
      split; [exact Hin|]. split; [exact Hl|]. split; [exact Hf | exact Hfl]. }
  split; [exact Hsorted|].
  split; [exact Hjan|]. split; [|split].
  - intros y Hy.
    destruct (Hvisit y Hy) as (k & Hk & Hlt & Hmonth & Hyear).
    destruct (Hjan k Hk Hlt Hmonth) as (mk & Hin & Hl & Hf & Hfl).
    exists mk. rewrite Hyear in Hfl.
    split; [exact Hin|]. split; [exact Hl|]. split; [exact Hf | exact Hfl].
  - intros k Hk Hlt Hshow.
    destruct (Hshown k Hk Hlt Hshow) as (mk & Hin & _ & _ & Hfl).
    apply NoDup_count_occ'.
    + apply (Permutation_NoDup (Permutation_map fullLabel (Permutation_sym Hperm))).
      exact HP2.
    + rewrite <- Hfl. exact (in_map fullLabel markers mk Hin).
  - intros mk Hin. apply (Permutation_in _ Hperm) in Hin.
    destruct (HP1 mk Hin) as (k & (Hk & Hlt & Hshow) & Hfor).
    exists k. split; [exact Hk|]. split; [exact Hlt|]. split; [exact Hshow | exact Hfor].
Qed.

End MonthMarkers.

Lemma calculateMonthMarkers_spec_witness :
  1 <= 2
  /\ StronglySorted weekIndex_le (calculateMonthMarkers birthday_2003_07_18 2 "quarter")
  /\ exists mk, In mk (calculateMonthMarkers birthday_2003_07_18 2 "quarter")
                /\ fullLabel mk = ("Jan " ++ toString 2004)%string.
Proof.
  assert (H : 1 <= 2) by lia.
  destruct (calculateMonthMarkers_spec birthday_2003_07_18 2 "quarter" H)
    as (H1 & _ & H3 & _).
  split; [exact H|]. split; [exact H1|].
  destruct (H3 2004) as (mk & Hin & _ & _ & Hfl).
  - split; vm_compute; reflexivity.
  - exists mk. split; [exact Hin | exact Hfl].
Defined.

(* ------------------------------------------------------------------ *)
(** ** More on week numbers and week keys *)
(* ------------------------------------------------------------------ *)

Section WeekNumbers.

Lemma Day_of_days (d : Z) : Day (d * msPerDay) = d.
Proof. unfold Day, msPerDay. zdiv. Qed.

(** The date [getISOWeekNumber] counts from is the Thursday of the week of
    [date], at local midnight. *)
Lemma shiftedToThursday_eq (date : Date) :
  shiftedToThursday date = 7 * ((Day date + 3) / 7) * msPerDay.
Proof.
  unfold shiftedToThursday. cbv zeta. rewrite setDate_shift.
  generalize (getDate (setHours0 date)) as n. intros n.
  unfold setHours0, MakeDate, getDay, WeekDay. rewrite Z.add_0_r, Day_of_days.
  destruct (Z.eqb_spec ((Day date + 4) mod 7) 0); unfold msPerDay; zdiv.
Qed.

Lemma newDate_jan1 (year : Z) :
  100 <= year \/ year < 0 -> newDate year 0 1 = DayFromYear year * msPerDay.
Proof.
  intros H. unfold newDate.
  replace ((0 <=? year) && (year <=? 99)) with false
    by (symmetry; apply andb_false_iff; lia).
  unfold MakeDate, MakeDay. cbn. rewrite !Z.add_0_r. lia.
Qed.

Lemma getISOWeekNumber_eq (date : Date) :
  let thursday := 7 * ((Day date + 3) / 7) in
  let year := YearFromDay thursday in
  100 <= year \/ year < 0 ->
  getISOWeekNumber date = (thursday - DayFromYear year) / 7 + 1.
Proof.
  intros thursday year Hy. unfold getISOWeekNumber.
  rewrite shiftedToThursday_eq. fold thursday.
  unfold getFullYear, YearFromTime. rewrite Day_of_days. fold year.
  rewrite newDate_jan1 by assumption.
  unfold ceilDiv, msPerDay. zdiv.
Qed.

(** X1: the week number [getISOWeekNumber] returns lies between 1 and 53,
    for every date whose Thursday falls in a year from 100 on. *)
Theorem getISOWeekNumber_range (date : Date)
    (Hyear : 100 <= getFullYear (shiftedToThursday date)) :
  1 <= getISOWeekNumber date <= 53.
Proof.
  rewrite shiftedToThursday_eq in Hyear.
  unfold getFullYear, YearFromTime in Hyear. rewrite Day_of_days in Hyear.
  rewrite getISOWeekNumber_eq by (left; exact Hyear).
  pose proof (YearFromDay_spec (7 * ((Day date + 3) / 7))) as H.
  rewrite DayFromYear_succ in H.
  pose proof (DaysInYear_range (YearFromDay (7 * ((Day date + 3) / 7)))).
  zdiv.
Qed.

(** X2: every date of a Monday-to-Sunday week has the week number of its
    Monday. *)
Theorem getISOWeekNumber_same_week (monday date : Date)
    (Hmonday : getDay monday = 1)
    (Hweek : Day monday <= Day date <= Day monday + 6) :
  getISOWeekNumber date = getISOWeekNumber monday.
Proof.
  unfold getISOWeekNumber. rewrite !shiftedToThursday_eq.
  replace ((Day date + 3) / 7) with ((Day monday + 3) / 7); [reflexivity|].
  unfold getDay, WeekDay in Hmonday. zdiv.
Qed.

Lemma weekToDate_eq (year week : Z) :
  let jan1 := newDate year 0 1 in
  let dow := (Day jan1 + 4) mod 7 in
  weekToDate year week
  = jan1 + ((week - 1) * 7 + (if dow <=? 4 then 1 - dow else 8 - dow)) * msPerDay.
Proof.
  intros jan1 dow. unfold weekToDate. fold jan1. rewrite setDate_add.
  unfold getDay, WeekDay. fold dow. destruct (dow <=? 4); reflexivity.
Qed.

(** X3: the date [convertWeekToDate] computes is a Monday, for every year
    and week. *)
Theorem weekToDate_is_monday (year week : Z) : getDay (weekToDate year week) = 1.
Proof.
  rewrite weekToDate_eq. unfold getDay, WeekDay. rewrite Day_shift.
  generalize (Day (newDate year 0 1)) as d. intros d.
  destruct (Z.leb_spec ((d + 4) mod 7) 4); zdiv.
Qed.



End WeekNumbers.

Lemma getISOWeekNumber_range_witness :
  100 <= getFullYear (shiftedToThursday dec31_2024)
  /\ 1 <= getISOWeekNumber dec31_2024 <= 53.
Proof.
  assert (H : 100 <= getFullYear (shiftedToThursday dec31_2024))
    by (vm_compute; discriminate).
  split; [exact H | exact (getISOWeekNumber_range dec31_2024 H)].
Defined.

Lemma getISOWeekNumber_same_week_witness :
  getDay monday_jan08_2024 = 1
  /\ getISOWeekNumber (newDate 2024 0 14) = getISOWeekNumber monday_jan08_2024.
Proof.
  assert (H : getDay monday_jan08_2024 = 1) by reflexivity.
  split; [exact H|].
  apply (getISOWeekNumber_same_week monday_jan08_2024 (newDate 2024 0 14) H).
  split; vm_compute; discriminate.
Defined.



(* ------------------------------------------------------------------ *)
(** ** More on week ranges, ages and positions *)
(* ------------------------------------------------------------------ *)

Section WeekRanges.

(** X7: a key without a dash has no ["-W"] separator: [getWeekDateRange]
    and [convertWeekToDate] both return the empty string for it. *)
Theorem week_key_without_separator (LocalTZA : Z) (weekKey : string)
    (Hnodash : allChars (differs "-") weekKey = true) :
  getWeekDateRange weekKey = EmptyString
  /\ convertWeekToDate LocalTZA weekKey = Normal EmptyString.
Proof.
  unfold getWeekDateRange, convertWeekToDate.
  rewrite (split_no_separator "-" "W" weekKey Hnodash). split; reflexivity.
Qed.

Lemma pushNew_NoDup (k : string) (keys : list string) :
  NoDup keys -> NoDup (if arrayIncludes k keys then keys else keys ++ [k]).
Proof.
  intros H. destruct (arrayIncludes k keys) eqn:E; [exact H|].
  apply arrayIncludes_not_In in E.
  apply NoDup_app; [exact H | repeat constructor; intros [] |].
  intros x Hx [<- | []]. contradiction.
Qed.

Lemma weekKeysLoop_NoDup (fuel : nat) :
  forall endDate currentDate weekKeys,
    NoDup weekKeys -> NoDup (weekKeysLoop fuel endDate currentDate weekKeys).
Proof.
  induction fuel as [|fuel IH]; intros endDate cur acc H; cbn [weekKeysLoop];
    [exact H|].
  destruct (cur <? endDate); [|exact H].
  destruct (_ >? endDate); [exact H|].
  apply IH. now apply pushNew_NoDup.
Qed.

(** X9: [getWeekKeysBetweenDates] never returns a key twice. *)
Theorem getWeekKeysBetweenDates_NoDup (startDate endDate : Date) :
  NoDup (getWeekKeysBetweenDates startDate endDate).
Proof.
  unfold getWeekKeysBetweenDates.
  destruct (startDate >? endDate); apply pushNew_NoDup, weekKeysLoop_NoDup;
    repeat constructor; intros [].
Qed.

Lemma weekKeysLoop_covers (fuel : nat) :
  forall endDate currentDate weekKeys j,
    endDate - currentDate < Z.of_nat fuel * (7 * msPerDay) ->
    1 <= j -> currentDate + j * (7 * msPerDay) <= endDate ->
    In (getWeekKeyFromDate (currentDate + j * (7 * msPerDay)))
       (weekKeysLoop fuel endDate currentDate weekKeys).
Proof.
  assert (Hms : 0 < msPerDay) by reflexivity.
  induction fuel as [|fuel IH]; intros endDate cur acc j Hfuel Hj Hle.
  - cbn in Hfuel. nia.
  - cbn [weekKeysLoop].
    destruct (Z.ltb_spec cur endDate); [|nia].
    rewrite setDate_add.
    destruct (Z.gtb_spec (cur + 7 * msPerDay) endDate); [nia|].
    set (acc' := if arrayIncludes _ acc then acc else _).
    destruct (Z.eq_dec j 1) as [-> | Hj1].
    + apply weekKeysLoop_incl. rewrite Z.mul_1_l. subst acc'.
      destruct (arrayIncludes _ acc) eqn:E;
        [now apply arrayIncludes_In | apply in_or_app; right; now left].
    + replace (cur + j * (7 * msPerDay))
        with (cur + 7 * msPerDay + (j - 1) * (7 * msPerDay)) by lia.
      apply IH; lia.
Qed.

(** X10: with the dates in order, [getWeekKeysBetweenDates] holds the week
    key of every date reached from the start date in steps of seven days up
    to the end date. *)
Theorem getWeekKeysBetweenDates_covers (startDate endDate : Date) (j : Z)
    (Hj : 0 <= j) (Hle : startDate + j * (7 * msPerDay) <= endDate) :
  In (getWeekKeyFromDate (startDate + j * (7 * msPerDay)))
     (getWeekKeysBetweenDates startDate endDate).
Proof.
  assert (Hms : 0 < msPerDay) by reflexivity.
  destruct (Z.eq_dec j 0) as [-> | Hj0].
  - rewrite Z.mul_0_l, Z.add_0_r. apply getWeekKeysBetweenDates_keys.
  - unfold getWeekKeysBetweenDates.
    destruct (Z.gtb_spec startDate endDate); [nia|].
    assert (Hin : In (getWeekKeyFromDate (startDate + j * (7 * msPerDay)))
                    (weekKeysLoop
                       (Z.to_nat ((endDate - startDate) / (7 * msPerDay) + 1))
                       endDate startDate [getWeekKeyFromDate startDate])).
    { apply weekKeysLoop_covers; [|lia|exact Hle].
      destruct (getWeekKeysBetweenDates_fuel endDate startDate) as [Hf | [_ Hf]];
        [exact Hf | nia]. }
    destruct (arrayIncludes _ _); [exact Hin | apply in_or_app; now left].
Qed.

(** X11: [getFullWeekAge] is the number of whole weeks from the birthday,
    rounded down, also before the birthday, where it is negative. *)
Theorem getFullWeekAge_floor (birthday : Date) (weeks rest : Z)
    (Hrest : 0 <= rest < 7 * msPerDay) :
  getFullWeekAge birthday (birthday + weeks * (7 * msPerDay) + rest) = weeks.
Proof.
  unfold getFullWeekAge, msPerDay in *. zdiv.
Qed.

(** X12: the column of the next year starts one cell and one gap further
    right; the gap is [DECADE_GAP] instead of [cellGap] when the next year
    opens a decade. *)
Theorem calculateYearPosition_step (year cellSize cellGap : Z) :
  calculateYearPosition (year + 1) cellSize cellGap
  - calculateYearPosition year cellSize cellGap
  = cellSize + (if (year + 1) mod 10 =? 0 then DECADE_GAP else cellGap).
Proof.
  unfold calculateYearPosition, DECADE_GAP.
  assert (E : (year + 1) / 10 = year / 10 + (if (year + 1) mod 10 =? 0 then 1 else 0))
    by (destruct (Z.eqb_spec ((year + 1) mod 10) 0); zdiv).
  rewrite E. destruct ((year + 1) mod 10 =? 0); lia.
Qed.

(** X13: [checkAndAutoFill] changes nothing but the filled weeks, keeps the
    weeks that were filled, and keeps the list free of duplicates. *)
Theorem checkAndAutoFill_keeps_NoDup (now : Date) (settings : ChronosSettings)
    (Hnodup : NoDup (filledWeeks settings)) :
  let settings' := snd (checkAndAutoFill now settings) in
  NoDup (filledWeeks settings')
  /\ incl (filledWeeks settings) (filledWeeks settings')
  /\ set_filledWeeks settings' (filledWeeks settings) = settings.
Proof.
  assert (Hid : set_filledWeeks settings (filledWeeks settings) = settings)
    by (destruct settings; reflexivity).
  unfold checkAndAutoFill.
  destruct (enableAutoFill settings); cbn [negb snd];
    [|split; [exact Hnodup | split; [apply incl_refl | exact Hid]]].
  destruct (getDay now =? autoFillDay settings); cbn [negb snd];
    [|split; [exact Hnodup | split; [apply incl_refl | exact Hid]]].
  destruct (arrayIncludes _ _) eqn:E; cbn [snd];
    [split; [exact Hnodup | split; [apply incl_refl | exact Hid]]|].
  cbn [filledWeeks set_filledWeeks]. split; [|split].
  - pose proof (pushNew_NoDup (getWeekKeyFromDate now) _ Hnodup) as H.
    now rewrite E in H.
  - apply incl_appl, incl_refl.
  - exact Hid.
Qed.

End WeekRanges.

Lemma week_key_without_separator_witness :
  allChars (differs "-") "2024W01" = true
  /\ getWeekDateRange "2024W01" = EmptyString
  /\ convertWeekToDate 0 "2024W01" = Normal EmptyString.
Proof.
  assert (H : allChars (differs "-") "2024W01" = true) by reflexivity.
  split; [exact H | exact (week_key_without_separator 0 "2024W01" H)].
Defined.

Lemma getWeekKeysBetweenDates_covers_witness :
  In (getWeekKeyFromDate (jan01_2024 + 1 * (7 * msPerDay)))
     (getWeekKeysBetweenDates jan01_2024 jan15_2024).
Proof.
  apply getWeekKeysBetweenDates_covers; [lia | vm_compute; discriminate].
Defined.

Lemma getFullWeekAge_floor_witness :
  getFullWeekAge birthday_2003_07_18
    (birthday_2003_07_18 + (-3) * (7 * msPerDay) + 5000) = -3.
Proof.
  apply getFullWeekAge_floor. split; vm_compute; [discriminate | reflexivity].
Defined.

Lemma checkAndAutoFill_keeps_NoDup_witness :
  NoDup (filledWeeks DEFAULT_SETTINGS)
  /\ NoDup (filledWeeks (snd (checkAndAutoFill monday_jan08_2024 DEFAULT_SETTINGS))).
Proof.
  assert (H : NoDup (filledWeeks DEFAULT_SETTINGS)) by constructor.
  split; [exact H|].
  exact (proj1 (checkAndAutoFill_keeps_NoDup monday_jan08_2024 DEFAULT_SETTINGS H)).
Defined.

(* ------------------------------------------------------------------ *)
(** ** More on event styling *)
(* ------------------------------------------------------------------ *)

Section EventStyling.

Local Open Scope string_scope.

Lemma addClass_In (c : Cell) (cls : string) : In cls (classList (addClass c cls)).
Proof.
  unfold addClass. cbn [classList].
  destruct (arrayIncludes cls (classList c)) eqn:E;
    [now apply arrayIncludes_In | apply in_or_app; right; now left].
Qed.

Lemma rangeLoop_outcome (weekKey defaultColor defaultDesc : string)
    (rangeEvents : list string) (cell : Cell) :
  let r := rangeLoop weekKey defaultColor defaultDesc rangeEvents cell in
  if fst r
  then backgroundColor (snd r) = defaultColor /\ In "event" (classList (snd r))
  else snd r = cell.
Proof.
  induction rangeEvents as [|e rest IH]; cbn [rangeLoop]; [reflexivity|].
  destruct (negb (truthy _) || negb (truthy _)); [exact IH|].
  destruct (isInRange _ _ _ _ _ _); [|exact IH].
  cbn [fst snd setTitle backgroundColor classList]. split; [reflexivity|].
  apply (addClass_In (setBackground cell defaultColor) "event").
Qed.

(** X14: a probe of one collection that finds no event leaves the cell as
    it was; one that finds an event gives the cell the colour of the
    category and the class ["event"]. *)
Theorem applyEventStyle_outcome (weekKey : string) (events : list string)
    (defaultColor defaultDesc : string) (cell : Cell) :
  let r := applyEventStyle weekKey events defaultColor defaultDesc cell in
  if fst r
  then backgroundColor (snd r) = defaultColor /\ In "event" (classList (snd r))
  else snd r = cell.
Proof.
  unfold applyEventStyle.
  destruct (truthy (find (isSingleEventFor weekKey) events));
    [|apply rangeLoop_outcome].
  cbn [fst snd setTitle backgroundColor classList]. split; [reflexivity|].
  apply (addClass_In (setBackground cell defaultColor) "event").
Qed.

Lemma applyEventStyle_no_match (weekKey : string) (events : list string)
    (defaultColor defaultDesc : string) (cell : Cell) :
  fst (applyEventStyle weekKey events defaultColor defaultDesc cell) = false ->
  snd (applyEventStyle weekKey events defaultColor defaultDesc cell) = cell.
Proof.
  intros H.
  pose proof (applyEventStyle_outcome weekKey events defaultColor defaultDesc cell) as O.
  cbv zeta in O. now rewrite H in O.
Qed.

(** X17: the four built-in collections are probed on the cell as it was, in
    the order Major Life, Travel, Relationship, Education/Career; the styling
    is that of the first one that matches, and the custom types are probed
    only when none does. *)
Theorem built_in_precedence (settings : ChronosSettings) (weekKey : string)
    (cell : Cell) :
  let green := applyEventStyle weekKey (greenEvents settings)
                 "#4CAF50" "Major Life Event" cell in
  let blue := applyEventStyle weekKey (blueEvents settings) "#2196F3" "Travel" cell in
  let pink := applyEventStyle weekKey (pinkEvents settings)
                "#E91E63" "Relationship" cell in
  let purple := applyEventStyle weekKey (purpleEvents settings)
                  "#9C27B0" "Education/Career" cell in
  applyCategoryStyling settings weekKey cell
  = if fst green then snd green
    else if fst blue then snd blue
    else if fst pink then snd pink
    else if fst purple then snd purple
    else customLoop weekKey (customEventTypes settings)
           (JSObject.entries (customEvents settings)) cell.
Proof.
  cbv zeta. unfold applyCategoryStyling.
  pose proof (applyEventStyle_no_match weekKey (greenEvents settings)
                "#4CAF50" "Major Life Event" cell) as Hg.
  destruct (applyEventStyle weekKey (greenEvents settings) _ _ cell) as [g cg].
  cbn [fst snd] in *. destruct g; cbn [negb]; [reflexivity|].
  rewrite (Hg eq_refl).
  pose proof (applyEventStyle_no_match weekKey (blueEvents settings)
                "#2196F3" "Travel" cell) as Hb.
  destruct (applyEventStyle weekKey (blueEvents settings) _ _ cell) as [b cb].
  cbn [fst snd] in *. destruct b; cbn [negb]; [reflexivity|].
  rewrite (Hb eq_refl).
  pose proof (applyEventStyle_no_match weekKey (pinkEvents settings)
                "#E91E63" "Relationship" cell) as Hp.
  destruct (applyEventStyle weekKey (pinkEvents settings) _ _ cell) as [p cp].
  cbn [fst snd] in *. destruct p; cbn [negb]; [reflexivity|].
  rewrite (Hp eq_refl).
  pose proof (applyEventStyle_no_match weekKey (purpleEvents settings)
                "#9C27B0" "Education/Career" cell) as Hu.
  destruct (applyEventStyle weekKey (purpleEvents settings) _ _ cell) as [u cu].
  cbn [fst snd] in *. destruct u; cbn [negb]; [reflexivity|].
  now rewrite (Hu eq_refl).
Qed.

Lemma drop_past (n : nat) (a b : string) :
  (String.length a <= n)%nat -> drop n (a ++ b) = drop (n - String.length a) b.
Proof.
  revert n. induction a as [|c a IH]; intros n H; cbn [append String.length].
  - now rewrite Nat.sub_0_r.
  - destruct n as [|n]; cbn in H; [lia|]. cbn [drop Nat.sub]. apply IH. lia.
Qed.

Lemma allChars_drop (p : ascii -> bool) (n : nat) (s : string) :
  allChars p s = true -> allChars p (drop n s) = true.
Proof.
  revert s. induction n as [|n IH]; intros s H; [now destruct s|].
  destruct s as [|c s]; [reflexivity|]. cbn [drop].
  cbn [allChars] in H. apply andb_prop in H as [_ H]. now apply IH.
Qed.

Lemma contains_absent (c0 : ascii) (sep s : string) :
  allChars (differs c0) s = true -> contains (String c0 sep) s = false.
Proof.
  induction s as [|c s IH]; [reflexivity|].
  cbn [allChars contains]. intros H. apply andb_prop in H as [Hc Hs].
  now rewrite (prefix_head_differs c0 c sep s Hc), (IH Hs).
Qed.

Lemma startsWith_nonempty (p s : string) :
  p <> EmptyString -> startsWith p s = true -> s <> EmptyString.
Proof.
  intros Hp H ->. destruct p; [congruence | discriminate H].
Qed.

Lemma singleEventData_is_single (weekKey description : string) :
  (String.length weekKey <= 9)%nat ->
  allChars (differs ":") description = true ->
  isSingleEventFor weekKey (singleEventData weekKey description) = true.
Proof.
  intros Hlen Hdesc. unfold isSingleEventFor, singleEventData, startsWith, includes.
  rewrite <- (append_assoc weekKey ":" description) at 1.
  rewrite prefix_append. cbn [andb].
  rewrite drop_past by lia.
  destruct (10 - String.length weekKey)%nat as [|m] eqn:E; [lia|].
  cbn [append drop].
  rewrite contains_absent; [reflexivity|].
  now apply allChars_drop.
Qed.

(** X15: an event stored for a single date is found again: when the
    collection holds the record of [weekKey] and a description without a
    colon, and the key has at most nine characters, the probe for [weekKey]
    matches. *)
Theorem single_event_found (weekKey description : string) (events : list string)
    (defaultColor defaultDesc : string) (cell : Cell)
    (Hlen : (String.length weekKey <= 9)%nat)
    (Hdesc : allChars (differs ":") description = true)
    (Hin : In (singleEventData weekKey description) events) :
  fst (applyEventStyle weekKey events defaultColor defaultDesc cell) = true.
Proof.
  unfold applyEventStyle.
  destruct (find (isSingleEventFor weekKey) events) as [e|] eqn:F.
  - apply find_some in F as [_ He].
    unfold isSingleEventFor in He. apply andb_prop in He as [Hs _].
    assert (Hne : e <> EmptyString).
    { apply (startsWith_nonempty (weekKey ++ ":") e); [|exact Hs].
      now destruct weekKey. }
    unfold truthy. destruct e; [congruence | reflexivity].
  - pose proof (find_none _ _ F _ Hin) as Hn.
    now rewrite singleEventData_is_single in Hn.
Qed.

(** X16: a colon in the description hides a single-date event.  When the
    second colon of the record lies at index ten or later and the text
    between the two colons has no [W], the record is neither a single-date
    event nor a range: a collection holding only it matches no cell, not
    even the one of its own week. *)
Theorem colon_in_description_hides_event
    (weekKey before after defaultColor defaultDesc : string) (cell : Cell)
    (Hkey : allChars (differs ":") weekKey = true)
    (Hbefore : allChars (differs ":") before = true)
    (HnoW : allChars (differs "W") before = true)
    (Hlen : (9 <= String.length weekKey + String.length before)%nat) :
  applyEventStyle weekKey [singleEventData weekKey (before ++ ":" ++ after)]
    defaultColor defaultDesc cell
  = (false, cell).
Proof.
  unfold applyEventStyle, singleEventData. cbn [find filter].
  assert (Hsingle : isSingleEventFor weekKey
                      (weekKey ++ ":" ++ before ++ ":" ++ after) = false).
  { unfold isSingleEventFor, includes.
    replace (weekKey ++ ":" ++ before ++ ":" ++ after)
      with ((weekKey ++ ":" ++ before) ++ ":" ++ after)
      by (now rewrite !append_assoc).
    rewrite drop_append by (rewrite !length_append; cbn [String.length]; lia).
    rewrite contains_append. apply andb_false_r. }
  assert (Hrange : isRangeEvent (weekKey ++ ":" ++ before ++ ":" ++ after) = false).
  { unfold isRangeEvent.
    rewrite (split_at_separator ":" "" weekKey _ Hkey).
    rewrite (split_at_separator ":" "" before _ Hbefore).
    cbn [nth_error]. unfold includes at 2. cbn [drop].
    rewrite (contains_absent "W" "" before HnoW). apply andb_false_r. }
  rewrite Hsingle, Hrange. reflexivity.
Qed.

(** X18: a filled week always gets the class ["filled-week"]; its
    background becomes the filled colour only when the cell carries no event,
    otherwise it stays what the event styling made it. *)
Theorem applyEventStyling_filled_week (now : Date) (settings : ChronosSettings)
    (cell : Cell) (weekKey : string)
    (Hfilled : In weekKey (filledWeeks settings)) :
  let r := applyEventStyling now settings cell weekKey in
  In "filled-week" (classList r)
  /\ backgroundColor r
     = if arrayIncludes "event" (classList r)
       then backgroundColor (applyCategoryStyling settings weekKey cell)
       else "#8bc34a".
Proof.
  unfold applyEventStyling.
  rewrite (proj2 (arrayIncludes_In weekKey (filledWeeks settings)) Hfilled).
  set (styled := applyCategoryStyling settings weekKey cell).
  match goal with
  | |- context [if ?b then addClass styled "future-event-highlight" else styled] =>
      generalize b
  end.
  intros b.
  set (highlighted := if b then addClass styled "future-event-highlight" else styled).
  assert (Hbg : backgroundColor highlighted = backgroundColor styled)
    by (subst highlighted; destruct b; reflexivity).
  clearbody highlighted styled.
  pose proof (addClass_In highlighted "filled-week") as Hin.
  destruct (arrayIncludes "event" (classList (addClass highlighted "filled-week")))
    eqn:E; cbn [negb].
  - split; [exact Hin|]. rewrite E. exact Hbg.
  - cbn [setBackground classList backgroundColor]. split; [exact Hin|].
    now rewrite E.
Qed.

End EventStyling.

Lemma single_event_found_witness :
  fst (applyEventStyle "2024-W05"%string (blueEvents settingsWithTwoTypes)
         "#2196F3"%string "Travel"%string futureCell) = true.
Proof.
  apply (single_event_found "2024-W05"%string "Lisbon"%string).
  - vm_compute. lia.
  - reflexivity.
  - left. reflexivity.
Defined.

Lemma colon_in_description_hides_event_witness :
  applyEventStyle "2024-W05"%string
    [singleEventData "2024-W05"%string ("Trip" ++ ":" ++ " Lisbon")%string]
    "#2196F3"%string "Travel"%string futureCell
  = (false, futureCell).
Proof.
  apply colon_in_description_hides_event; try reflexivity.
  vm_compute. lia.
Defined.

Lemma applyEventStyling_filled_week_witness :
  In "filled-week"%string
     (classList (applyEventStyling monday_jan08_2024
                   (set_filledWeeks settingsWithTwoTypes ["2024-W02"%string])
                   futureCell "2024-W02"%string)).
Proof.
  apply (applyEventStyling_filled_week monday_jan08_2024
           (set_filledWeeks settingsWithTwoTypes ["2024-W02"%string])
           futureCell "2024-W02"%string).
  left. reflexivity.
Defined.

(* ------------------------------------------------------------------ *)
(** ** Event collections and custom types *)
(* ------------------------------------------------------------------ *)

Section Objects.

Lemma get_set_same (o : JSObject.t) (k : string) (v : list string) :
  JSObject.get (JSObject.set o k v) k = Some v.
Proof.
  induction o as [|[k' v'] o IH]; cbn [JSObject.set JSObject.get].
  - now rewrite String.eqb_refl.
  - destruct (String.eqb k' k) eqn:E; cbn [JSObject.get]; now rewrite E.
Qed.


Lemma get_delete_other (o : JSObject.t) (k k' : string) :
  k' <> k -> JSObject.get (JSObject.delete o k) k' = JSObject.get o k'.
Proof.
  intros Hne. induction o as [|[k0 v0] o IH]; cbn [JSObject.delete JSObject.get];
    [reflexivity|].
  destruct (String.eqb_spec k0 k) as [-> | Hk]; cbn [JSObject.get].
  - destruct (String.eqb_spec k k'); [congruence | reflexivity].
  - now rewrite IH.
Qed.

Lemma get_absent (o : JSObject.t) (k : string) :
  ~ In k (map fst o) -> JSObject.get o k = None.
Proof.
  induction o as [|[k0 v0] o IH]; cbn [map fst JSObject.get In]; [reflexivity|].
  intros H. destruct (String.eqb_spec k0 k) as [-> | Hk]; [tauto|].
  apply IH. tauto.
Qed.

Lemma get_delete_same (o : JSObject.t) (k : string) :
  NoDup (map fst o) -> JSObject.get (JSObject.delete o k) k = None.
Proof.
  induction o as [|[k0 v0] o IH]; cbn [map fst JSObject.delete JSObject.get];
    [reflexivity|].
  intros H. apply NoDup_cons_iff in H as [Hnot Hnd].
  destruct (String.eqb_spec k0 k) as [-> | Hk].
  - now apply get_absent.
  - cbn [JSObject.get]. destruct (String.eqb_spec k0 k); [congruence|]. now apply IH.
Qed.





End Objects.

Section EventCollections.

Local Open Scope string_scope.


End EventCollections.


Section CustomTypes.

Lemma set_custom_same (s : ChronosSettings) :
  set_custom s (customEventTypes s) (customEvents s) = s.
Proof. destruct s; reflexivity. Qed.

Lemma existsb_name_false (types : list CustomEventType) (n : string) :
  existsb (fun t => String.eqb (name t) n) types = false ->
  ~ In n (map name types).
Proof.
  intros H Hin. apply in_map_iff in Hin as (t & <- & Ht).
  assert (existsb (fun t0 => String.eqb (name t0) (name t)) types = true)
    by (apply existsb_exists; exists t; split; [exact Ht | apply String.eqb_refl]).
  congruence.
Qed.

Lemma replaceFirst_names (old : string) (v : CustomEventType)
    (types types' : list CustomEventType) :
  replaceFirst (fun t => String.eqb (name t) old) v types = Some types' ->
  exists before after,
    map name types = before ++ old :: after
    /\ map name types' = before ++ name v :: after
    /\ In v types'.
Proof.
  revert types'. induction types as [|h t IH]; intros types'; cbn [replaceFirst];
    [discriminate|].
  destruct (String.eqb_spec (name h) old) as [E | N].
  - intros [= <-]. exists [], (map name t). cbn [map app]. rewrite E.
    repeat split. now left.
  - destruct (replaceFirst _ v t) as [t'|]; [|discriminate].
    intros [= <-]. destruct (IH t' eq_refl) as (b & a & H1 & H2 & H3).
    exists (name h :: b), a. cbn [map app]. rewrite H1, H2.
    repeat split. now right.
Qed.


(** X21: the rename handler keeps the names of the custom types unique,
    whatever is entered. *)
Theorem rename_keeps_names_unique (type : CustomEventType)
    (nameInput colorInput : string) (settings : ChronosSettings)
    (Hnames : NoDup (map name (customEventTypes settings))) :
  NoDup (map name (customEventTypes
                     (snd (showEditTypeModal_save type nameInput colorInput settings)))).
Proof.
  unfold showEditTypeModal_save.
  destruct (String.eqb (trim nameInput) ""%string); [exact Hnames|].
  destruct (negb (String.eqb (trim nameInput) (name type))
            && existsb _ (customEventTypes settings)) eqn:C; [exact Hnames|].
  destruct (replaceFirst _ _ (customEventTypes settings)) as [types'|] eqn:R;
    cbn [snd customEventTypes set_custom]; [|exact Hnames].
  apply replaceFirst_names in R as (before & after & H1 & H2 & _).
  cbn [name] in H2. rewrite H2. rewrite H1 in Hnames.
  destruct (String.eqb_spec (trim nameInput) (name type)) as [E | N].
  - now rewrite E.
  - cbn [negb andb] in C. apply existsb_name_false in C. rewrite H1 in C.
    apply NoDup_remove in Hnames as [Hnd _].
    apply (NoDup_Add (Add_app (trim nameInput) before after)).
    split; [exact Hnd|].
    intros Hin. apply C. apply in_app_or in Hin as [Hin | Hin];
      apply in_or_app; [now left | right; now right].
Qed.

Lemma existsb_names (n : string) (types : list CustomEventType) :
  existsb (String.eqb n) (map name types)
  = existsb (fun t => String.eqb (name t) n) types.
Proof.
  induction types as [|h t IH]; cbn [map existsb]; [reflexivity|].
  now rewrite IH, String.eqb_sym.
Qed.

(** X20: the "Add Type" handler keeps the names of the custom types unique.
    It changes nothing for an empty name or the name of an existing custom
    type; otherwise it appends the type and gives it an empty collection. *)
Theorem addType_click_spec (nameInput colorInput : string) (settings : ChronosSettings)
    (Hnames : NoDup (map name (customEventTypes settings))) :
  let settings' := snd (addType_click nameInput colorInput settings) in
  NoDup (map name (customEventTypes settings'))
  /\ if String.eqb (trim nameInput) ""%string
        || existsb (String.eqb (trim nameInput)) (map name (customEventTypes settings))
     then settings' = settings
     else customEventTypes settings'
          = customEventTypes settings
            ++ [{| name := trim nameInput; color := colorInput |}]
          /\ JSObject.get (customEvents settings') (trim nameInput) = Some [].
Proof.
  unfold addType_click.
  destruct (String.eqb (trim nameInput) ""%string); cbn [orb snd];
    [split; [exact Hnames | reflexivity]|].
  rewrite existsb_names.
  destruct (existsb _ (customEventTypes settings)) eqn:Ex; cbn [snd];
    [split; [exact Hnames | reflexivity]|].
  cbn [customEventTypes customEvents set_custom]. split.
  - rewrite map_app. cbn [map name].
    apply existsb_name_false in Ex.
    apply NoDup_app; [exact Hnames | repeat constructor; intros [] |].
    intros x Hx [<- | []]. contradiction.
  - split; [reflexivity | apply get_set_same].
Qed.

(** X22: a confirmed deletion removes the type and its collection and
    nothing else: no type of that name and no collection under it remain,
    every other type and every other collection stay. *)
Theorem deleteType_click_spec (type : CustomEventType) (settings : ChronosSettings)
    (Hkeys : NoDup (map fst (customEvents settings))) :
  let settings' := snd (deleteType_click type true settings) in
  ~ In (name type) (map name (customEventTypes settings'))
  /\ JSObject.get (customEvents settings') (name type) = None
  /\ (forall t, In t (customEventTypes settings) -> name t <> name type ->
        In t (customEventTypes settings'))
  /\ (forall k, k <> name type ->
        JSObject.get (customEvents settings') k = JSObject.get (customEvents settings) k)
  /\ snd (deleteType_click type false settings) = settings.
Proof.
  cbn [deleteType_click snd customEventTypes customEvents set_custom].
  split; [|split; [|split; [|split]]].
  - intros Hin. apply in_map_iff in Hin as (t & E & Ht).
    apply filter_In in Ht as [_ Ht]. rewrite E, String.eqb_refl in Ht. discriminate.
  - now apply get_delete_same.
  - intros t Ht Hne. apply filter_In. split; [exact Ht|].
    destruct (String.eqb_spec (name t) (name type)); [contradiction | reflexivity].
  - intros k Hk. now apply get_delete_other.
  - reflexivity.
Qed.

End CustomTypes.


Lemma rename_keeps_names_unique_witness :
  NoDup (map name (customEventTypes
                     (snd (showEditTypeModal_save typeHobby "Games"%string
                             "#FF9800"%string settingsWithTwoTypes)))).
Proof.
  apply rename_keeps_names_unique.
  vm_compute. repeat constructor; cbn; intuition discriminate.
Defined.

Lemma addType_click_spec_witness :
  NoDup (map name (customEventTypes
                     (snd (addType_click " Games "%string "#FF9800"%string
                             settingsWithTwoTypes)))).
Proof.
  refine (proj1 (addType_click_spec " Games "%string "#FF9800"%string
                   settingsWithTwoTypes _)).
  vm_compute. repeat constructor; cbn; intuition discriminate.
Defined.

Lemma deleteType_click_spec_witness :
  JSObject.get (customEvents (snd (deleteType_click typeHobby true settingsWithTwoTypes)))
    "Hobby"%string = None.
Proof.
  refine (proj1 (proj2 (deleteType_click_spec typeHobby settingsWithTwoTypes _))).
  vm_compute. repeat constructor; cbn; intuition discriminate.
Defined.

(* ------------------------------------------------------------------ *)
(** ** Manual fill and note files *)
(* ------------------------------------------------------------------ *)

Section ManualFill.

Lemma removeFirst_In (x k : string) (a : list string) :
  NoDup a -> (In k (removeFirst x a) <-> In k a /\ k <> x).
Proof.
  induction a as [|h t IH]; cbn [removeFirst In]; [tauto|].
  intros H. apply NoDup_cons_iff in H as [Hh Ht].
  destruct (String.eqb_spec h x) as [-> | N].
  - split; [intros Hk; split; [now right | intros ->; contradiction]|].
    intros [[-> | Hk] Hne]; [congruence | exact Hk].
  - cbn [In]. rewrite (IH Ht). split.
    + intros [-> | [Hk Hne]]; [split; [now left | exact N] | split; [now right | exact Hne]].
    + intros [[-> | Hk] Hne]; [now left | right; now split].
Qed.

Lemma removeFirst_NoDup (x : string) (a : list string) :
  NoDup a -> NoDup (removeFirst x a).
Proof.
  induction a as [|h t IH]; cbn [removeFirst]; [trivial|].
  intros H. pose proof H as H0. apply NoDup_cons_iff in H as [Hh Ht].
  destruct (String.eqb h x); [exact Ht|].
  constructor; [|now apply IH].
  intros Hin. apply (removeFirst_In x h t Ht) in Hin as [Hin _]. contradiction.
Qed.

Lemma removeFirst_pushed (x : string) (a : list string) :
  ~ In x a -> removeFirst x (a ++ [x]) = a.
Proof.
  induction a as [|h t IH]; cbn [removeFirst app In]; intros H.
  - now rewrite String.eqb_refl.
  - destruct (String.eqb_spec h x) as [-> | N]; [tauto|].
    f_equal. apply IH. tauto.
Qed.

(** X23: the manual fill of a future week, with auto-fill off, toggles the
    week: it is filled afterwards exactly when it was not before, every other
    week keeps its state, and the list stays free of duplicates.  A second
    toggle of a week that was not filled restores the list.  With auto-fill
    on, or for a week that is not in the future, nothing changes. *)
Theorem cell_contextmenu_toggle (weekIndex ageInWeeks : Z) (weekKey : string)
    (settings : ChronosSettings) (cell : Cell)
    (Hnodup : NoDup (filledWeeks settings)) :
  let r := cell_contextmenu weekIndex ageInWeeks weekKey settings cell in
  if enableAutoFill settings || (weekIndex <=? ageInWeeks)
  then r = (settings, cell)
  else (In weekKey (filledWeeks (fst r)) <-> ~ In weekKey (filledWeeks settings))
       /\ (forall k, k <> weekKey ->
             (In k (filledWeeks (fst r)) <-> In k (filledWeeks settings)))
       /\ NoDup (filledWeeks (fst r))
       /\ (In "filled-week"%string (classList (snd r))
           <-> In weekKey (filledWeeks (fst r)))
       /\ (~ In weekKey (filledWeeks settings) ->
           filledWeeks
             (fst (cell_contextmenu weekIndex ageInWeeks weekKey (fst r) (snd r)))
           = filledWeeks settings).
Proof.
  unfold cell_contextmenu.
  destruct (enableAutoFill settings) eqn:Ea; cbn [orb]; [reflexivity|].
  destruct (weekIndex <=? ageInWeeks) eqn:Ew; [reflexivity|].
  destruct (arrayIncludes weekKey (filledWeeks settings)) eqn:E;
    cbn [fst snd filledWeeks set_filledWeeks enableAutoFill].
  - apply arrayIncludes_In in E.
    split; [|split; [|split; [|split]]].
    + rewrite (removeFirst_In weekKey weekKey _ Hnodup). tauto.
    + intros k Hk. rewrite (removeFirst_In weekKey k _ Hnodup). tauto.
    + now apply removeFirst_NoDup.
    + rewrite (removeFirst_In weekKey weekKey _ Hnodup).
      cbn [removeClass classList]. rewrite filter_In, String.eqb_refl. cbn.
      intuition discriminate.
    + tauto.
  - apply arrayIncludes_not_In in E.
    split; [|split; [|split; [|split]]].
    + split; [intros _; exact E | intros _; apply in_or_app; right; now left].
    + intros k Hk. rewrite in_app_iff. cbn [In]. split; [|tauto].
      intros [H | [H | []]]; [exact H | congruence].
    + apply NoDup_app; [exact Hnodup | repeat constructor; intros [] |].
      intros x Hx [<- | []]. contradiction.
    + cbn [setBackground classList]. split; intros _.
      * apply in_or_app. right. now left.
      * apply addClass_In.
    + intros _. rewrite ?Ea, ?Ew. cbn [orb].
      rewrite (proj2 (arrayIncludes_In weekKey (filledWeeks settings ++ [weekKey])))
        by (apply in_or_app; right; now left).
      cbn [fst filledWeeks set_filledWeeks]. now apply removeFirst_pushed.
Qed.

End ManualFill.

Section NoteFiles.

Local Open Scope string_scope.

Lemma append_cancel_l (a x y : string) : a ++ x = a ++ y -> x = y.
Proof.
  induction a as [|c a IH]; cbn [append]; [trivial|].
  intros H. injection H as H. now apply IH.
Qed.

Lemma drop_length_append (a b : string) : drop (String.length a) (a ++ b) = b.
Proof.
  induction a as [|c a IH]; cbn [String.length append drop]; [now destruct b | exact IH].
Qed.

Lemma replace_first (c0 : ascii) (pattern replacement a rest : string) :
  allChars (differs c0) a = true ->
  replace (String c0 pattern) replacement (a ++ String c0 pattern ++ rest)
  = a ++ replacement ++ rest.
Proof.
  intros H. change (String c0 pattern ++ rest) with (String c0 (pattern ++ rest)).
  induction a as [|c a IH].
  - cbn [append replace].
    change (String c0 (pattern ++ rest)) with (String c0 pattern ++ rest).
    now rewrite prefix_append, drop_length_append.
  - cbn [allChars] in H. apply andb_prop in H as [Hc Ha].
    cbn [append replace]. rewrite (prefix_head_differs c0 c pattern _ Hc).
    now rewrite (IH Ha).
Qed.

(** X24: the note a cell opens is named with a doubled dash: for the key of
    a non-negative year and week the click handler builds
    ["<year>--W<week>.md"], which is never the ["<year>-W<week>.md"] of
    [createOrOpenWeekNote]. *)
Theorem cellNoteFileName_doubled_dash (year week : Z)
    (Hyear : 0 <= year) (Hweek : 0 <= week) :
  cellNoteFileName (formatWeekKey year week)
  = toString year ++ "--W" ++ padStart 2 "0" (toString week) ++ ".md"
  /\ cellNoteFileName (formatWeekKey year week) <> formatWeekKey year week ++ ".md".
Proof.
  assert (E : cellNoteFileName (formatWeekKey year week)
              = toString year ++ "--W" ++ padStart 2 "0" (toString week) ++ ".md").
  { unfold cellNoteFileName, formatWeekKey.
    replace (toString year ++ "-W" ++ padStart 2 "0" (toString week))
      with ((toString year ++ "-") ++ "W" ++ padStart 2 "0" (toString week))
      by (now rewrite append_assoc).
    rewrite (replace_first "W" "" "-W").
    - now rewrite !append_assoc.
    - rewrite allChars_append. cbn [allChars]. rewrite andb_true_r.
      apply allChars_impl with (p := isDigit); [|now apply toString_digits].
      intros c Hc. apply isDigit_differs; [reflexivity | exact Hc]. }
  split; [exact E|]. rewrite E. unfold formatWeekKey. rewrite !append_assoc.
  intros H. apply append_cancel_l in H. discriminate H.
Qed.

Lemma weekNoteFileName_eq (date : Date) :
  weekNoteFileName date = getWeekKeyFromDate date ++ ".md".
Proof.
  unfold weekNoteFileName, getWeekKeyFromDate, formatWeekKey.
  now rewrite !append_assoc.
Qed.

Lemma endsWith_append (suffix a : string) : endsWith suffix (a ++ suffix) = true.
Proof.
  induction a as [|c a IH]; cbn [append].
  - destruct suffix; cbn [endsWith]; now rewrite String.eqb_refl.
  - cbn [endsWith]. rewrite IH. apply orb_true_r.
Qed.

Lemma trimEnd_keeps (c : ascii) (s : string) :
  isWhiteSpace c = false -> trimEnd (String c s) <> EmptyString.
Proof.
  intros H. cbn [trimEnd]. destruct (trimEnd s); [rewrite H|]; discriminate.
Qed.

Lemma trim_nonblank (s : string) :
  allChars isWhiteSpace s = false -> trim s <> EmptyString.
Proof.
  unfold trim. induction s as [|c s IH]; cbn [allChars trimStart]; [discriminate|].
  destruct (isWhiteSpace c) eqn:E; cbn [andb]; [exact IH|].
  intros _. now apply trimEnd_keeps.
Qed.

(** X25: a notes folder is used with exactly one slash before the file
    name, whether or not the setting ends with one. *)
Theorem getFullPath_trailing_slash (notesFolder fileName : string)
    (Hblank : trim notesFolder <> EmptyString)
    (Hslash : endsWith "/" notesFolder = false) :
  getFullPath notesFolder fileName = notesFolder ++ "/" ++ fileName
  /\ getFullPath (notesFolder ++ "/") fileName = notesFolder ++ "/" ++ fileName.
Proof.
  unfold getFullPath. split.
  - destruct (String.eqb_spec notesFolder ""); [subst; now cbn in Hblank|].
    destruct (String.eqb_spec (trim notesFolder) ""); [contradiction|].
    cbn [negb andb]. rewrite Hslash. cbn [negb]. apply append_assoc.
  - destruct (String.eqb_spec (notesFolder ++ "/") "");
      [now destruct notesFolder|].
    destruct (String.eqb_spec (trim (notesFolder ++ "/")) "") as [E | _].
    + exfalso. revert E. apply trim_nonblank.
      rewrite allChars_append. cbn. apply andb_false_r.
    + cbn [negb andb]. rewrite endsWith_append. cbn [negb]. apply append_assoc.
Qed.

End NoteFiles.

Lemma cell_contextmenu_toggle_witness :
  NoDup (filledWeeks manualFillSettings)
  /\ In "2030-W10"%string
        (filledWeeks (fst (cell_contextmenu 1400 1000 "2030-W10"%string
                             manualFillSettings futureCell))).
Proof.
  assert (Hn : NoDup (filledWeeks manualFillSettings)) by constructor.
  split; [exact Hn|].
  pose proof (cell_contextmenu_toggle 1400 1000 "2030-W10"%string
                manualFillSettings futureCell Hn) as H.
  cbv zeta in H.
  change (enableAutoFill manualFillSettings || (1400 <=? 1000)) with false in H.
  cbv iota in H. apply (proj1 H). intros [].
Defined.

Lemma cellNoteFileName_doubled_dash_witness :
  cellNoteFileName (formatWeekKey 2024 2) = "2024--W02.md"%string.
Proof.
  exact (proj1 (cellNoteFileName_doubled_dash 2024 2 ltac:(lia) ltac:(lia))).
Defined.

Lemma getFullPath_trailing_slash_witness :
  getFullPath "notes"%string "2024-W02.md"%string = "notes/2024-W02.md"%string
  /\ getFullPath "notes/"%string "2024-W02.md"%string = "notes/2024-W02.md"%string.
Proof.
  apply (getFullPath_trailing_slash "notes"%string "2024-W02.md"%string).
  - discriminate.
  - reflexivity.
Defined.

(* ------------------------------------------------------------------ *)
(** ** Printed week keys, and the time zone of [convertWeekToDate] *)
(* ------------------------------------------------------------------ *)

Section PrintedKeys.


Lemma toISODateString_day (tz1 tz2 : Z) (a b : Date) :
  Day (a - tz1) = Day (b - tz2) -> toISODateString tz1 a = toISODateString tz2 b.
Proof.
  intros E.
  unfold toISODateString, DateFromTime, MonthFromTime, InLeapYear, DayWithinYear,
    YearFromTime.
  now rewrite E.
Qed.

Lemma weekToDate_midnight (year week : Z) :
  weekToDate year week = Day (weekToDate year week) * msPerDay.
Proof.
  rewrite weekToDate_eq. unfold newDate, MakeDate. rewrite Z.add_0_r.
  set (d := MakeDay _ 0 1). rewrite Day_of_days.
  set (k := (week - 1) * 7 + _).
  replace (d * msPerDay + k * msPerDay) with ((d + k) * msPerDay) by lia.
  now rewrite Day_of_days.
Qed.

(** X28: [convertWeekToDate] prints its Monday in UTC.  In a zone at or up
    to a day behind UTC the printed date is that Monday; in a zone ahead of
    UTC it is the day before, a Sunday. *)
Theorem convertWeekToDate_time_zone (LocalTZA year week : Z)
    (Hzone : - msPerDay < LocalTZA <= msPerDay) :
  toISODateString LocalTZA (weekToDate year week)
  = toISODateString 0
      (if 0 <? LocalTZA then weekToDate year week - msPerDay
       else weekToDate year week).
Proof.
  apply toISODateString_day. rewrite Z.sub_0_r.
  pose proof (weekToDate_midnight year week) as M.
  revert M. generalize (weekToDate year week) as w. intros w M.
  destruct (Z.ltb_spec 0 LocalTZA); unfold Day, msPerDay in *; zdiv.
Qed.

End PrintedKeys.


Lemma convertWeekToDate_time_zone_witness :
  toISODateString 3600000 (weekToDate 2024 2) = "2024-01-07"%string.
Proof.
  refine (convertWeekToDate_time_zone 3600000 2024 2 _).
  split; vm_compute; [reflexivity | discriminate].
Defined.

Section WeekStarts.

(** X6: the first day [getWeekDateRange] shows is the Monday
    [convertWeekToDate] computes exactly in the years whose January 1st falls
    on Monday to Thursday; in every other year it is seven days earlier. *)
Theorem getWeekDateRange_start_vs_monday (year week : Z) :
  (firstDayOfWeek year week = weekToDate year week
   <-> 1 <= getDay (newDate year 0 1) <= 4)
  /\ (firstDayOfWeek year week = weekToDate year week
      \/ firstDayOfWeek year week = weekToDate year week - 7 * msPerDay).
Proof.
  pose proof (firstDayOfWeek_vs_weekToDate year week) as E. cbv zeta in E.
  assert (Hms : 0 < msPerDay) by reflexivity.
  revert E Hms.
  generalize (firstDayOfWeek year week) as f, (weekToDate year week) as w,
    (getDay (newDate year 0 1)) as dow, msPerDay as ms.
  intros f w dow ms E Hms.
  destruct (Z.leb_spec 1 dow); destruct (Z.leb_spec dow 4); cbn [andb] in E; lia.
Qed.

(** X8: whatever the order of its arguments, [getWeekKeysBetweenDates]
    returns at least one key, and the keys of its first argument and of the
    later of the two dates are among them. *)
Theorem getWeekKeysBetweenDates_first_and_later (startDate endDate : Date) :
  (1 <= List.length (getWeekKeysBetweenDates startDate endDate))%nat
  /\ In (getWeekKeyFromDate startDate) (getWeekKeysBetweenDates startDate endDate)
  /\ In (getWeekKeyFromDate (Z.max startDate endDate))
        (getWeekKeysBetweenDates startDate endDate).
Proof.
  destruct (getWeekKeysBetweenDates_keys startDate endDate) as [H1 H2].
  split; [|split; assumption].
  destruct (getWeekKeysBetweenDates startDate endDate); [destruct H1 | cbn; lia].
Qed.

End WeekStarts.
